(** * Training analyzer: the aggregation and evaluation core

    A shallow embedding of [training_analyzer_html.py]
    (class [HTMLTrainingAnalyzer]): the normaliser [_clean_data] with its
    local [time_to_minutes], the filter [get_running_data], the weekly
    aggregation [_get_weekly_data] and the metrics computed by
    [generate_html_report] before the HTML template is filled in; also
    the targets of the following week that the template prints, and the
    argument loop of [main].

    Conventions of the model.
    - A Python/NumPy float is an extended rational [pyfloat]: a finite
      value in [Qc], the two infinities, or not-a-number.  The four
      operations and the comparisons follow IEEE 754 on these four kinds of
      value, except that an operation on finite values gives its exact
      result, neither rounded to binary64 nor turned into an infinity.
      The properties therefore relate a value to the operations that the
      code performs, in the order in which it performs them, and compare
      values; none rests on a law of exact arithmetic that rounding
      breaks.  The ends of the range are modelled where they decide what
      the code does: text that reads as a number beyond the range is an
      infinity, and an integer beyond the range does not convert
      ([OverflowError]).
    - Text is a [string] of bytes.  The numeric grammar of [int] and
      [float] is the one for 7-bit characters: a byte above 127 is neither
      a digit nor white space.  Properties about reading text are stated
      for text of 7-bit characters.
    - A timestamp is an integer number of microseconds since
      1970-01-01 00:00, and every row carries one; the maximum of an empty
      date column (pandas [NaT]) is [None].
    - The cells of the optional columns (["Avg HR"], ["Max HR"],
      ["Aerobic TE"]) are numbers, blank cells being not-a-number; a
      column that holds text is outside the model.  What the properties
      say of a report holds of the reports that the code finishes; that a
      report is finished is said of the sample data only. *)

From Stdlib Require Import ZArith QArith Qcanon Qround Ascii String List Bool Lia.
From Stdlib Require Import Sorting.Permutation Sorting.Sorted.
From stdpp Require Import base option list sorting gmap.

Local Open Scope Z_scope.

(** ** Floats *)

Module Float.

Inductive pyfloat : Type :=
| Fin (q : Qc)
| PInf
| NInf
| NaN.

Definition of_Z (n : Z) : pyfloat := Fin (Q2Qc (inject_Z n)).
Definition of_Q (q : Q) : pyfloat := Fin (Q2Qc q).

Definition zero : pyfloat := of_Z 0.

Definition sgn (q : Qc) : comparison := Qccompare q (Q2Qc 0).

Definition is_nan (x : pyfloat) : bool :=
  match x with NaN => true | _ => false end.

Definition fopp (x : pyfloat) : pyfloat :=
  match x with
  | Fin q => Fin (Qcopp q)
  | PInf => NInf
  | NInf => PInf
  | NaN => NaN
  end.

Definition fadd (x y : pyfloat) : pyfloat :=
  match x, y with
  | NaN, _ | _, NaN => NaN
  | Fin a, Fin b => Fin (Qcplus a b)
  | PInf, NInf | NInf, PInf => NaN
  | PInf, _ | _, PInf => PInf
  | NInf, _ | _, NInf => NInf
  end.

(** An infinity scaled by a finite factor: the sign of the factor decides,
    and a zero factor gives not-a-number. *)
Definition scale_inf (positive_inf : bool) (q : Qc) : pyfloat :=
  match sgn q with
  | Eq => NaN
  | Gt => if positive_inf then PInf else NInf
  | Lt => if positive_inf then NInf else PInf
  end.

Definition fmul (x y : pyfloat) : pyfloat :=
  match x, y with
  | NaN, _ | _, NaN => NaN
  | Fin a, Fin b => Fin (Qcmult a b)
  | PInf, PInf | NInf, NInf => PInf
  | PInf, NInf | NInf, PInf => NInf
  | PInf, Fin q | Fin q, PInf => scale_inf true q
  | NInf, Fin q | Fin q, NInf => scale_inf false q
  end.

(** Division as NumPy performs it.  A zero divisor gives an infinity or
    not-a-number; every division of the program has a divisor that is a
    non-zero constant or is guarded by a test [> 0]. *)
Definition fdiv (x y : pyfloat) : pyfloat :=
  match x, y with
  | NaN, _ | _, NaN => NaN
  | Fin a, Fin b =>
      match sgn b with
      | Eq => match sgn a with Eq => NaN | Gt => PInf | Lt => NInf end
      | _ => Fin (Qcdiv a b)
      end
  | Fin _, (PInf | NInf) => zero
  | (PInf | NInf), (PInf | NInf) => NaN
  | PInf, Fin b => match sgn b with Lt => NInf | _ => PInf end
  | NInf, Fin b => match sgn b with Lt => PInf | _ => NInf end
  end.

(** Comparisons: every comparison with not-a-number is false. *)
Definition flt (x y : pyfloat) : bool :=
  match x, y with
  | NaN, _ | _, NaN => false
  | Fin a, Fin b => match Qccompare a b with Lt => true | _ => false end
  | NInf, NInf => false
  | NInf, _ => true
  | _, NInf => false
  | PInf, _ => false
  | Fin _, PInf => true
  end.

Definition fle (x y : pyfloat) : bool :=
  match x, y with
  | NaN, _ | _, NaN => false
  | Fin a, Fin b => match Qccompare a b with Gt => false | _ => true end
  | NInf, _ => true
  | _, PInf => true
  | PInf, _ => false
  | Fin _, NInf => false
  end.

Definition fgt (x y : pyfloat) : bool := flt y x.
Definition fge (x y : pyfloat) : bool := fle y x.

(** Round to the nearest integer, ties to the even one (NumPy [rint]). *)
Definition rint (q : Q) : Z :=
  let f := Qfloor q in
  match Qcompare (q - inject_Z f) (1 # 2) with
  | Lt => f
  | Gt => f + 1
  | Eq => if Z.even f then f else f + 1
  end.

(** [round(decimals=1)]: scale by ten, round to an integer, scale back. *)
Definition round1 (x : pyfloat) : pyfloat :=
  match x with
  | Fin q => Fin (Q2Qc (inject_Z (rint (this q * 10)) / 10))
  | _ => x
  end.

(** What a float denotes, with the rational in lowest terms; concrete
    values are compared through this view. *)
Inductive view : Type :=
| VFin (q : Q)
| VPInf
| VNInf
| VNaN.

Definition view_of (x : pyfloat) : view :=
  match x with
  | Fin q => VFin (this q)
  | PInf => VPInf
  | NInf => VNInf
  | NaN => VNaN
  end.

End Float.
Export Float.

(** ** Text and the numeric literals of Python *)

Module Text.

(** [str.split(sep)] for a one-character separator: every occurrence
    splits, so the empty string gives one empty part. *)
Fixpoint split (sep : ascii) (s : string) : list string :=
  match s with
  | EmptyString => [EmptyString]
  | String c rest =>
      if Ascii.eqb c sep then EmptyString :: split sep rest
      else match split sep rest with
           | p :: ps => String c p :: ps
           | [] => [String c EmptyString]
           end
  end.

(** [str.replace(old, '')] for a one-character [old]. *)
Fixpoint remove_char (old : ascii) (s : string) : string :=
  match s with
  | EmptyString => EmptyString
  | String c rest =>
      if Ascii.eqb c old then remove_char old rest
      else String c (remove_char old rest)
  end.

Fixpoint contains_char (c : ascii) (s : string) : bool :=
  match s with
  | EmptyString => false
  | String d rest => Ascii.eqb d c || contains_char c rest
  end.

Definition code (c : ascii) : Z := Z.of_nat (nat_of_ascii c).

Definition is_digit (c : ascii) : bool := (48 <=? code c) && (code c <=? 57).

Definition digit_val (c : ascii) : Z := code c - 48.

(** White space that [int] and [float] strip from 7-bit text: tab, line
    feed, vertical tab, form feed, carriage return and space. *)
Definition is_space (c : ascii) : bool :=
  ((9 <=? code c) && (code c <=? 13)) || (code c =? 32).

Fixpoint lstrip (s : string) : string :=
  match s with
  | String c rest => if is_space c then lstrip rest else s
  | EmptyString => EmptyString
  end.

Fixpoint rstrip (s : string) : string :=
  match s with
  | EmptyString => EmptyString
  | String c rest =>
      match rstrip rest with
      | EmptyString => if is_space c then EmptyString else String c EmptyString
      | r => String c r
      end
  end.

Definition strip (s : string) : string := rstrip (lstrip s).

Definition lower (c : ascii) : ascii :=
  if (65 <=? code c) && (code c <=? 90)
  then ascii_of_nat (nat_of_ascii c + 32) else c.

Fixpoint lowercase (s : string) : string :=
  match s with
  | EmptyString => EmptyString
  | String c rest => String (lower c) (lowercase rest)
  end.

(** A [digitpart]: decimal digits, single underscores allowed between two
    digits.  [after_digit] tells whether the previous character was a
    digit; the result lists the digit values. *)
Fixpoint digitpart_from (after_digit : bool) (s : string) : option (list Z) :=
  match s with
  | EmptyString => if after_digit then Some [] else None
  | String c rest =>
      if is_digit c then
        match digitpart_from true rest with
        | Some ds => Some (digit_val c :: ds)
        | None => None
        end
      else if Ascii.eqb c "_"%char && after_digit then digitpart_from false rest
      else None
  end.

Definition digitpart (s : string) : option (list Z) := digitpart_from false s.

Definition decimal (ds : list Z) : Z := fold_left (fun acc d => 10 * acc + d) ds 0.

(** An optional sign in front of the rest; [true] means negative. *)
Definition take_sign (s : string) : bool * string :=
  match s with
  | String "-"%char rest => (true, rest)
  | String "+"%char rest => (false, rest)
  | _ => (false, s)
  end.

(** The most digits that [int] reads ([sys.get_int_max_str_digits()]). *)
Definition max_str_digits : nat := 4300.

(** [int(s)] on text, base ten; [None] stands for [ValueError], which
    text of more than 4300 digits raises as well. *)
Definition py_int (s : string) : option Z :=
  let (neg, body) := take_sign (strip s) in
  match digitpart body with
  | Some ds =>
      if (max_str_digits <? length ds)%nat then None
      else Some (if neg then - decimal ds else decimal ds)
  | None => None
  end.

(** The least magnitude that rounds to an infinity: halfway between the
    greatest finite float, 2^1024 - 2^971, and 2^1024. *)
Definition overflow_threshold : Z := 2 ^ 1024 - 2 ^ 970.

(** An integer as a float, as an arithmetic operation with a float
    converts it; [None] stands for [OverflowError]. *)
Definition float_of_int (n : Z) : option pyfloat :=
  if Z.abs n <? overflow_threshold then Some (of_Z n) else None.

(** The float that a non-negative decimal numeral denotes, at the ends of
    the range: an infinity from the threshold on, and 0 up to half the
    least positive float, 2^-1074. *)
Definition of_decimal (q : Q) : pyfloat :=
  if Qle_bool (inject_Z overflow_threshold) q then PInf
  else if Qle_bool q (1 / inject_Z (2 ^ 1075)) then zero
  else of_Q q.

(** The text in front of the first character satisfying [p], and the text
    after it when there is one. *)
Fixpoint break_at (p : ascii -> bool) (s : string) : string * option string :=
  match s with
  | EmptyString => (EmptyString, None)
  | String c rest =>
      if p c then (EmptyString, Some rest)
      else let (a, b) := break_at p rest in (String c a, b)
  end.

Definition is_exp_mark (c : ascii) : bool := Ascii.eqb c "e"%char || Ascii.eqb c "E"%char.
Definition is_point (c : ascii) : bool := Ascii.eqb c "."%char.

Definition optional_digits (s : string) : option (list Z) :=
  match s with
  | EmptyString => Some []
  | _ => digitpart s
  end.

(** Mantissa [digitpart], [digitpart "."], ["." digitpart] or
    [digitpart "." digitpart]: its value as an exact rational. *)
Definition mantissa (s : string) : option Q :=
  match break_at is_point s with
  | (ip, None) =>
      match digitpart ip with
      | Some ds => Some (inject_Z (decimal ds))
      | None => None
      end
  | (ip, Some fp) =>
      match optional_digits ip, optional_digits fp with
      | Some [], Some [] => None
      | Some di, Some df =>
          Some (inject_Z (decimal di)
                + inject_Z (decimal df) / inject_Z (10 ^ Z.of_nat (length df)))%Q
      | _, _ => None
      end
  end.

Definition exponent (s : string) : option Z :=
  let (neg, body) := take_sign s in
  match digitpart body with
  | Some ds => Some (if neg then - decimal ds else decimal ds)
  | None => None
  end.

Definition pow10 (e : Z) : Q :=
  if e <? 0 then (1 / inject_Z (10 ^ (- e)))%Q else inject_Z (10 ^ e).

(** [float(s)] on text; [None] stands for [ValueError]. *)
Definition py_float (s : string) : option pyfloat :=
  let (neg, body) := take_sign (strip s) in
  let signed (x : pyfloat) := if neg then fopp x else x in
  let name := lowercase body in
  if String.eqb name "inf"%string || String.eqb name "infinity"%string then Some (signed PInf)
  else if String.eqb name "nan"%string then Some NaN
  else
    match break_at is_exp_mark body with
    | (m, None) =>
        match mantissa m with
        | Some q => Some (signed (of_decimal q))
        | None => None
        end
    | (m, Some e) =>
        match mantissa m, exponent e with
        | Some q, Some k => Some (signed (of_decimal (q * pow10 k)))
        | _, _ => None
        end
    end.

End Text.
Export Text.

(** ** Frames *)

(** Microseconds in a day: timestamps count microseconds since
    1970-01-01 00:00, the resolution of [datetime.now()]. *)
Definition day : Z := 86400 * 1000000.

(** [timedelta(days=n)]. *)
Definition timedelta_days (n : Z) : Z := n * day.

(** [Timedelta.days]: whole days, rounded down. *)
Definition days (delta : Z) : Z := delta / day.

(** A cell of a column as [read_csv] leaves it: a number (not-a-number
    when the cell is blank) or, in a column that is not all numeric, text. *)
Inductive cell : Type :=
| CNum (x : pyfloat)
| CStr (s : string).

(** A row of the export after [read_csv] and [to_datetime]. *)
Record raw_activity : Type := {
  raw_Date : Z;
  raw_Activity_Type : string;
  raw_Distance : cell;
  raw_Calories : cell;
  raw_Time : cell;
  raw_Total_Ascent : cell;
  raw_Total_Descent : cell;
  raw_Avg_HR : pyfloat;
  raw_Max_HR : pyfloat;
  raw_Aerobic_TE : pyfloat
}.

(** A row after [_clean_data]. *)
Record activity : Type := {
  Date : Z;
  Activity_Type : string;
  Distance : pyfloat;
  Calories : pyfloat;
  Time_Minutes : pyfloat;
  Total_Ascent : pyfloat;
  Total_Descent : pyfloat;
  Avg_HR : pyfloat;
  Max_HR : pyfloat;
  Aerobic_TE : pyfloat
}.

(** A data frame: its column names and its rows.  The columns that
    [_clean_data] reads or writes are always there; [columns] decides for
    the optional ones (["Avg HR"], ["Max HR"], ["Aerobic TE"]), whose row
    fields are meaningful only when the column is present. *)
Record frame (row : Type) : Type := {
  columns : list string;
  rows : list row
}.
Arguments columns {row} _.
Arguments rows {row} _.

(** ['name' in df.columns]. *)
Definition has_column {row : Type} (name : string) (f : frame row) : bool :=
  existsb (String.eqb name) (columns f).

(** The analyzer object. *)
Record analyzer : Type := {
  df : frame activity;
  marathon_date : Z;
  race_date : Z
}.

Inductive exn : Type :=
| ValueError
| KeyError (missing : list string).

Inductive outcome (A : Type) : Type :=
| Ok (a : A)
| Raise (e : exn).
Arguments Ok {A} a.
Arguments Raise {A} e.

(** ** Series operations of pandas *)

Module Series.

Definition dropna (xs : list pyfloat) : list pyfloat :=
  List.filter (fun x => negb (is_nan x)) xs.

(** [Series.sum()]: not-a-number entries are skipped; the empty sum is 0. *)
Definition sum (xs : list pyfloat) : pyfloat :=
  fold_right fadd zero (dropna xs).

(** [Series.mean()]: the mean of the entries that are numbers, and
    not-a-number when there is none. *)
Definition mean (xs : list pyfloat) : pyfloat :=
  match dropna xs with
  | [] => NaN
  | ys => fdiv (fold_right fadd zero ys) (of_Z (Z.of_nat (length ys)))
  end.

(** [Series.max()] of a column of timestamps; [None] is [NaT]. *)
Definition max (ts : list Z) : option Z :=
  match ts with
  | [] => None
  | t :: rest => Some (fold_right Z.max t rest)
  end.

(** [tail(n)]: the last [n] rows. *)
Definition tail {A : Type} (n : nat) (l : list A) : list A :=
  drop (length l - n)%nat l.

(** Mapping a fallible conversion over a column: the first failure aborts. *)
Fixpoint astype {A B : Type} (conv : A -> option B) (xs : list A) : outcome (list B) :=
  match xs with
  | [] => Ok []
  | x :: rest =>
      match conv x with
      | None => Raise ValueError
      | Some y =>
          match astype conv rest with
          | Ok ys => Ok (y :: ys)
          | Raise e => Raise e
          end
      end
  end.

End Series.

(** ** Construction: [__init__] and [_clean_data] *)

Definition date_le (a b : raw_activity) : Prop := raw_Date a <= raw_Date b.

(** A row put into rows in ascending order of date, in front of the first
    row that is not dated before it. *)
Fixpoint insert_by_date (r : raw_activity) (sorted : list raw_activity)
    : list raw_activity :=
  match sorted with
  | [] => [r]
  | x :: rest =>
      if raw_Date r <=? raw_Date x then r :: sorted
      else x :: insert_by_date r rest
  end.

(** Sorting by insertion, from the last row to the first: each row goes
    in front of the later rows of its date, so rows of equal date stay in
    the order of the file. *)
Definition sort_by_date (rs : list raw_activity) : list raw_activity :=
  fold_right insert_by_date [] rs.

(** [sort_values('Date')]: the rows in ascending order of date.  No
    statement below depends on the order among rows of equal date. *)
Definition sort_values (f : frame raw_activity) : frame raw_activity :=
  {| columns := columns f; rows := sort_by_date (rows f) |}.

(** [astype(str).str.replace(',', '').astype(float)] on one cell.  The
    text of a number has no comma and reads back as that number. *)
Definition clean_number (c : cell) : option pyfloat :=
  match c with
  | CNum x => Some x
  | CStr s => py_float (remove_char "," s)
  end.

(** The local function [time_to_minutes] of [_clean_data].  A blank cell
    is not-a-number and gives 0 through [pd.isna]; the text of any other
    number has no colon, hence one part, and gives 0 as well.  The sum of
    the integer fields is an integer; adding the float to it converts it,
    and the [except] clause turns every failure into 0: a field that does
    not read as a number, or an integer too large for a float. *)
Definition time_to_minutes (time_str : cell) : pyfloat :=
  match time_str with
  | CNum _ => zero
  | CStr text =>
      match split ":" text with
      | [h; m; s] =>
          match py_int h, py_int m, py_float s with
          | Some h', Some m', Some s' =>
              match float_of_int (h' * 60 + m') with
              | Some whole => fadd whole (fdiv s' (of_Z 60))
              | None => zero
              end
          | _, _, _ => zero
          end
      | [m; s] =>
          match py_int m, py_float s with
          | Some m', Some s' =>
              match float_of_int m' with
              | Some whole => fadd whole (fdiv s' (of_Z 60))
              | None => zero
              end
          | _, _ => zero
          end
      | _ => zero
      end
  end.

(** [fillna(0)]. *)
Definition fillna0 (x : pyfloat) : pyfloat :=
  match x with NaN => zero | _ => x end.

Section Normalise.

(** [pd.to_numeric(errors='coerce')] on a text cell: the number the text
    denotes in pandas' own grammar, not-a-number when it denotes none. *)
Variable to_numeric_text : string -> pyfloat.

Definition to_numeric_coerce (c : cell) : pyfloat :=
  match c with
  | CNum x => x
  | CStr s => to_numeric_text s
  end.

Definition clean_row (r : raw_activity) (distance calories : pyfloat) : activity :=
  {| Date := raw_Date r;
     Activity_Type := raw_Activity_Type r;
     Distance := distance;
     Calories := calories;
     Time_Minutes := time_to_minutes (raw_Time r);
     Total_Ascent := fillna0 (to_numeric_coerce (raw_Total_Ascent r));
     Total_Descent := fillna0 (to_numeric_coerce (raw_Total_Descent r));
     Avg_HR := raw_Avg_HR r;
     Max_HR := raw_Max_HR r;
     Aerobic_TE := raw_Aerobic_TE r |}.

Fixpoint zip_rows (rs : list raw_activity) (ds cs : list pyfloat) : list activity :=
  match rs, ds, cs with
  | r :: rs', d :: ds', c :: cs' => clean_row r d c :: zip_rows rs' ds' cs'
  | _, _, _ => []
  end.

(** [_clean_data]: the distance column is converted first, then the
    calorie column; a cell that is not a number aborts with [ValueError].
    The new column [Time_Minutes] is added. *)
Definition _clean_data (f : frame raw_activity) : outcome (frame activity) :=
  match Series.astype clean_number (map raw_Distance (rows f)) with
  | Raise e => Raise e
  | Ok ds =>
      match Series.astype clean_number (map raw_Calories (rows f)) with
      | Raise e => Raise e
      | Ok cs =>
          Ok {| columns := columns f ++ ["Time_Minutes"%string];
                rows := zip_rows (rows f) ds cs |}
      end
  end.

(** [HTMLTrainingAnalyzer(csv_file)], from the frame that [read_csv] and
    [to_datetime] give. *)
Definition __init__ (csv : frame raw_activity) : outcome analyzer :=
  match _clean_data (sort_values csv) with
  | Raise e => Raise e
  | Ok f =>
      Ok {| df := f;
            marathon_date := timedelta_days 20373;  (* 2025-10-12 *)
            race_date := timedelta_days 20569 |}    (* 2026-04-26 *)
  end.

End Normalise.

(** ** Methods: a state and exception monad over the analyzer object *)

Definition M (A : Type) : Type := analyzer -> outcome A * analyzer.

#[global] Instance M_ret : MRet M := fun A (a : A) self => (Ok a, self).

#[global] Instance M_bind : MBind M := fun A B (k : A -> M B) (m : M A) self =>
  match m self with
  | (Ok a, self') => k a self'
  | (Raise e, self') => (Raise e, self')
  end.

(** Reading an attribute of [self]. *)
Definition attr {A : Type} (field : analyzer -> A) : M A :=
  fun self => (Ok (field self), self).

Definition raise {A : Type} (e : exn) : M A := fun self => (Raise e, self).

Local Open Scope string_scope.
Local Open Scope Z_scope.

(** [get_running_data]: a copy of the rows whose type is ['Running'].
    Frames are values here: the frame returned is a new one, as the frame
    that the selection and [copy()] make is in the source. *)
Definition get_running_data : M (frame activity) :=
  f ← attr df;
  mret {| columns := columns f;
          rows := List.filter (fun r => String.eqb (Activity_Type r) "Running") (rows f) |}.

(** The rows dated on or after a cutoff; no row passes a missing cutoff. *)
Definition on_or_after (cutoff : option Z) (rs : list activity) : list activity :=
  match cutoff with
  | Some c => List.filter (fun r => c <=? Date r) rs
  | None => []
  end.

(** [dt.to_period('W')]: weeks run from Monday to Sunday; a week is named
    by the day number of its Monday (1970-01-01 was a Thursday). *)
Definition week_of (t : Z) : Z :=
  let d := days t in d - (d + 3) mod 7.

(** One row of the result of [groupby('Week').agg(...)]. *)
Record bucket : Type := {
  Week : Z;
  sum_Distance : pyfloat;
  sum_Total_Ascent : pyfloat;
  sum_Time_Minutes : pyfloat;
  count_Activity_Type : Z;
  mean_Avg_HR : pyfloat;
  sum_Aerobic_TE : pyfloat
}.

(** [recent['Week'] = recent['Date'].dt.to_period('W')]: the frame with
    its new column, every row next to its week. *)
Definition assign_Week (f : frame activity) : frame (Z * activity) :=
  {| columns := (columns f ++ ["Week"])%list;
     rows := map (fun r => (week_of (Date r), r)) (rows f) |}.

(** The group keys, each once, in ascending order. *)
Definition group_keys (rs : list (Z * activity)) : list Z :=
  merge_sort Z.le (remove_dups (map fst rs)).

Definition aggregate (rs : list (Z * activity)) (w : Z) : bucket :=
  let g := map snd (List.filter (fun p => fst p =? w) rs) in
  {| Week := w;
     sum_Distance := round1 (Series.sum (map Distance g));
     sum_Total_Ascent := round1 (Series.sum (map Total_Ascent g));
     sum_Time_Minutes := round1 (Series.sum (map Time_Minutes g));
     count_Activity_Type := Z.of_nat (length g);
     mean_Avg_HR := round1 (Series.mean (map Avg_HR g));
     sum_Aerobic_TE := round1 (Series.sum (map Aerobic_TE g)) |}.

(** The columns an aggregation names that the frame lacks, as pandas
    lists them in its [KeyError]. *)
Definition missing_columns {row : Type} (f : frame row) : list string :=
  List.filter (fun c => negb (has_column c f)) ["Aerobic TE"; "Avg HR"].

(** [_get_weekly_data(weeks)].  [recent] is a copy, a frame of its own:
    giving it the column ['Week'] changes no other frame. *)
Definition _get_weekly_data (weeks : Z) : M (list bucket) :=
  running ← get_running_data;
  let cutoff_date :=
    option_map (fun t => t - timedelta_days (weeks * 7))
               (Series.max (map Date (rows running))) in
  let recent :=
    {| columns := columns running;
       rows := on_or_after cutoff_date (rows running) |} in
  let recent := assign_Week recent in
  match missing_columns recent with
  | [] => mret (map (aggregate (rows recent)) (group_keys (rows recent)))
  | missing => raise (KeyError missing)
  end.

(** [_get_chart_data]: the week of each bucket (the source prints it as a
    label), the distances and the elevations. *)
Record chart : Type := {
  chart_weeks : list Z;
  chart_distances : list pyfloat;
  chart_elevations : list pyfloat
}.

Definition _get_chart_data : M chart :=
  weekly ← _get_weekly_data 8;
  mret {| chart_weeks := map Week weekly;
          chart_distances := map sum_Distance weekly;
          chart_elevations := map sum_Total_Ascent weekly |}.

(** *** The blocks of [generate_html_report] *)

(** Recovery status: the status and its badge class. *)
Definition recovery (weeks_since : pyfloat) : string * string :=
  if flt weeks_since (of_Z 2) then ("EARLY RECOVERY", "warning")
  else if flt weeks_since (of_Z 4) then ("RECOVERY PHASE", "warning")
  else ("RECOVERED", "success").

(** Training plan targets. *)
Record target : Type := {
  distance : Z;
  elevation : Z;
  runs : Z
}.

Definition plan_targets : gmap Z target :=
  list_to_map
    [ (1, {| distance := 35; elevation := 200; runs := 4 |});
      (2, {| distance := 38; elevation := 250; runs := 4 |});
      (3, {| distance := 42; elevation := 280; runs := 4 |});
      (4, {| distance := 45; elevation := 300; runs := 4 |});
      (5, {| distance := 45; elevation := 400; runs := 4 |});
      (6, {| distance := 48; elevation := 450; runs := 4 |});
      (7, {| distance := 52; elevation := 550; runs := 4 |});
      (8, {| distance := 55; elevation := 600; runs := 4 |});
      (9, {| distance := 52; elevation := 650; runs := 4 |});
      (10, {| distance := 56; elevation := 700; runs := 4 |});
      (11, {| distance := 60; elevation := 850; runs := 5 |});
      (12, {| distance := 60; elevation := 900; runs := 5 |});
      (13, {| distance := 55; elevation := 750; runs := 4 |});
      (14, {| distance := 48; elevation := 600; runs := 4 |}) ].

(** [plan_targets.get(current_week_of_plan, {...})]. *)
Definition plan_target (current_week_of_plan : Z) : target :=
  default {| distance := 40; elevation := 300; runs := 4 |}
          (plan_targets !! current_week_of_plan).

(** [(actual / goal) * 100 if goal > 0 else 0]. *)
Definition percent (actual : pyfloat) (goal : Z) : pyfloat :=
  if 0 <? goal then fmul (fdiv actual (of_Z goal)) (of_Z 100) else zero.

(** Assessment: the label, its alert class and its icon. *)
Definition assess (dist_pct elev_pct : pyfloat) : string * string * string :=
  if fge dist_pct (of_Z 90) && fge elev_pct (of_Z 80)
  then ("ON TRACK", "success", "✓")
  else if fge dist_pct (of_Z 75)
  then ("SLIGHTLY BEHIND", "warning", "△")
  else ("BEHIND TARGET", "danger", "⚠").

(** The width of a progress bar in the template: [min(pct, 100)], which
    is its first argument unless the second is smaller. *)
Definition bar_width (pct : pyfloat) : pyfloat :=
  if flt (of_Z 100) pct then of_Z 100 else pct.

(** HR analysis. *)
Record hr_stats : Type := {
  avg_hr : pyfloat;
  max_hr : pyfloat;
  avg_te : pyfloat;
  load_status : string;
  load_class : string
}.

Definition load (avg_te : pyfloat) : string * string :=
  if fgt avg_te (of_Q (4 # 1)) then ("HIGH LOAD", "danger")
  else if fgt avg_te (of_Q (3 # 1)) then ("MODERATE LOAD", "success")
  else ("LOW LOAD", "warning").

Definition hr_analysis (running : frame activity) : hr_stats :=
  let recent_10 := Series.tail 10 (rows running) in
  let avg_hr :=
    if has_column "Avg HR" running then Series.mean (map Avg_HR recent_10) else zero in
  let max_hr :=
    if has_column "Max HR" running then Series.mean (map Max_HR recent_10) else zero in
  if has_column "Aerobic TE" running then
    let avg_te := Series.mean (map Aerobic_TE recent_10) in
    {| avg_hr := avg_hr; max_hr := max_hr; avg_te := avg_te;
       load_status := fst (load avg_te); load_class := snd (load avg_te) |}
  else
    {| avg_hr := avg_hr; max_hr := max_hr; avg_te := zero;
       load_status := "N/A"; load_class := "secondary" |}.

(** Phase info. *)
Definition phase_info (current_week_of_plan : Z) : string * string :=
  if current_week_of_plan <=? 4 then
    ("BASE BUILDING", "Rebuild volume gradually, introduce hill work")
  else if current_week_of_plan <=? 8 then
    ("HILL STRENGTH", "Progressive hill intervals, downhill practice")
  else if current_week_of_plan <=? 14 then
    ("SPECIFIC ENDURANCE", "Long runs with elevation, tempo on hills")
  else if current_week_of_plan <=? 18 then
    ("RACE SIMULATION", "Race-pace efforts, practice nutrition")
  else
    ("TAPER", "Maintain intensity, reduce volume").

(** The values that [generate_html_report] computes and hands to the
    template. *)
Record report : Type := {
  weeks_since : pyfloat;
  post_marathon_runs : Z;
  post_marathon_distance : pyfloat;
  post_marathon_avg : pyfloat;
  recovery_status : string;
  recovery_class : string;
  total_distance : pyfloat;
  total_elevation : pyfloat;
  total_runs : Z;
  avg_distance : pyfloat;
  avg_weekly_dist : pyfloat;
  avg_weekly_elev : pyfloat;
  week_distance : pyfloat;
  week_elevation : pyfloat;
  week_runs : Z;
  plan : target;
  dist_pct : pyfloat;
  elev_pct : pyfloat;
  runs_pct : pyfloat;
  assessment : string;
  assessment_class : string;
  assessment_icon : string;
  hr : hr_stats;
  days_to_race : Z;
  weeks_to_race : pyfloat;
  phase : string;
  phase_focus : string;
  chart_data : chart
}.

(** [generate_html_report(current_week_of_plan)] up to the template.
    [now] is what [datetime.now()] returns during the call. *)
Definition generate_html_report (current_week_of_plan : Z) (now : Z) : M report :=
  running ← get_running_data;
  marathon ← attr marathon_date;
  let last := Series.max (map Date (rows running)) in
  let days_since_marathon :=
    match last with
    | Some t => of_Z (days (t - marathon))
    | None => NaN
    end in
  let weeks_since := fdiv days_since_marathon (of_Z 7) in
  (* Post-marathon stats *)
  let post_marathon := List.filter (fun r => marathon <? Date r) (rows running) in
  let post_marathon_runs := Z.of_nat (length post_marathon) in
  let post_marathon_distance := Series.sum (map Distance post_marathon) in
  let post_marathon_avg :=
    if 0 <? post_marathon_runs then Series.mean (map Distance post_marathon) else zero in
  (* Recent 4 weeks analysis *)
  let recent_4wks :=
    on_or_after (option_map (fun t => t - timedelta_days 28) last) (rows running) in
  let total_distance := Series.sum (map Distance recent_4wks) in
  let total_elevation := Series.sum (map Total_Ascent recent_4wks) in
  let total_runs := Z.of_nat (length recent_4wks) in
  let avg_distance :=
    if 0 <? total_runs then fdiv total_distance (of_Z total_runs) else zero in
  let avg_weekly_dist := fdiv total_distance (of_Z 4) in
  let avg_weekly_elev := fdiv total_elevation (of_Z 4) in
  (* Last 7 days *)
  let last_week :=
    match last with
    | Some last_week_end =>
        let last_week_start := last_week_end - timedelta_days 7 in
        List.filter (fun r => (last_week_start <=? Date r) && (Date r <=? last_week_end))
                    (rows running)
    | None => []
    end in
  let week_distance := Series.sum (map Distance last_week) in
  let week_elevation := Series.sum (map Total_Ascent last_week) in
  let week_runs := Z.of_nat (length last_week) in
  (* Training plan targets *)
  let target := plan_target current_week_of_plan in
  let dist_pct := percent week_distance (distance target) in
  let elev_pct := percent week_elevation (elevation target) in
  let runs_pct := percent (of_Z week_runs) (runs target) in
  (* Race countdown *)
  race ← attr race_date;
  let days_to_race := days (race - now) in
  let weeks_to_race := fdiv (of_Z days_to_race) (of_Z 7) in
  (* Get chart data *)
  chart_data ← _get_chart_data;
  mret {| weeks_since := weeks_since;
          post_marathon_runs := post_marathon_runs;
          post_marathon_distance := post_marathon_distance;
          post_marathon_avg := post_marathon_avg;
          recovery_status := fst (recovery weeks_since);
          recovery_class := snd (recovery weeks_since);
          total_distance := total_distance;
          total_elevation := total_elevation;
          total_runs := total_runs;
          avg_distance := avg_distance;
          avg_weekly_dist := avg_weekly_dist;
          avg_weekly_elev := avg_weekly_elev;
          week_distance := week_distance;
          week_elevation := week_elevation;
          week_runs := week_runs;
          plan := target;
          dist_pct := dist_pct;
          elev_pct := elev_pct;
          runs_pct := runs_pct;
          assessment := fst (fst (assess dist_pct elev_pct));
          assessment_class := snd (fst (assess dist_pct elev_pct));
          assessment_icon := snd (assess dist_pct elev_pct);
          hr := hr_analysis running;
          days_to_race := days_to_race;
          weeks_to_race := weeks_to_race;
          phase := fst (phase_info current_week_of_plan);
          phase_focus := snd (phase_info current_week_of_plan);
          chart_data := chart_data |}.

(** Whether every character of a text satisfies a test. *)
Fixpoint forall_chars (p : ascii -> bool) (s : string) : bool :=
  match s with
  | EmptyString => true
  | String c rest => p c && forall_chars p rest
  end.

(** *** The template and the command line *)

(** The two targets that the recommendations of the template print for
    the following week:
    [plan_targets.get(current_week_of_plan + 1, {}).get('distance', 40)]
    and the same with ['elevation'] and 300. *)
Definition next_week_distance (current_week_of_plan : Z) : Z :=
  match plan_targets !! (current_week_of_plan + 1) with
  | Some t => distance t
  | None => 40
  end.

Definition next_week_elevation (current_week_of_plan : Z) : Z :=
  match plan_targets !! (current_week_of_plan + 1) with
  | Some t => elevation t
  | None => 300
  end.

(** [str.isdigit()]: at least one character, and digits only. *)
Definition isdigit (s : string) : bool :=
  match s with
  | EmptyString => false
  | _ => forall_chars is_digit s
  end.

(** The argument loop of [main], over [sys.argv[2:]] counted from 2: the
    week of the plan and the output file that it leaves. *)
Fixpoint scan_arguments (argv : list string) (i : nat) (rest : list string)
    (current_week : Z) (output_file : string) : outcome (Z * string) :=
  match rest with
  | [] => Ok (current_week, output_file)
  | arg :: rest' =>
      if String.eqb arg "--output" && (i + 1 <? length argv)%nat then
        scan_arguments argv (S i) rest' current_week (nth (i + 1) argv "")
      else if isdigit arg then
        match py_int arg with
        | Some n => scan_arguments argv (S i) rest' n output_file
        | None => Raise ValueError
        end
      else scan_arguments argv (S i) rest' current_week output_file
  end.

Definition parse_arguments (argv : list string) : outcome (Z * string) :=
  scan_arguments argv 2 (drop 2 argv) 1 "training_report.html".

(** ** The methods over a store of frames

    The frames of pandas are objects: a selection and a copy each make a
    new one, and an assignment to a column changes the frame that it
    names.  Here the methods run over a store of frames, the analyzer
    holding a reference to its own; what a method writes, and to which
    frame, is visible at this level.  Frames that a method only reads
    (the windows of the report, the last ten records) stay values. *)

Module Store.

(** A frame of the store: as [_clean_data] leaves it, or with the column
    ['Week'] assigned. *)
Inductive object : Type :=
| Plain (f : frame activity)
| Weekly (f : frame (Z * activity)).

Definition ref : Type := nat.

Definition store : Type := list object.

(** The analyzer object: [self.df] refers to a frame of the store. *)
Record handle : Type := {
  df_ref : ref;
  marathon : Z;
  race : Z
}.

(** A method over the store.  [None] is a reference that names no frame
    of the kind that is read. *)
Definition Method (A : Type) : Type := store -> option (outcome A * store).

#[global] Instance Method_ret : MRet Method := fun A (a : A) st => Some (Ok a, st).

#[global] Instance Method_bind : MBind Method :=
  fun A B (k : A -> Method B) (m : Method A) st =>
    match m st with
    | Some (Ok a, st') => k a st'
    | Some (Raise e, st') => Some (Raise e, st')
    | None => None
    end.

(** A new frame, at the end of the store. *)
Definition alloc (o : object) : Method ref :=
  fun st => Some (Ok (length st), (st ++ [o])%list).

Definition plain_at (r : ref) : Method (frame activity) :=
  fun st =>
    match st !! r with
    | Some (Plain f) => Some (Ok f, st)
    | _ => None
    end.

Definition weekly_at (r : ref) : Method (frame (Z * activity)) :=
  fun st =>
    match st !! r with
    | Some (Weekly f) => Some (Ok f, st)
    | _ => None
    end.

(** The frame that a reference names, replaced. *)
Definition put (r : ref) (o : object) : Method unit :=
  fun st =>
    match st !! r with
    | Some _ => Some (Ok tt, <[r := o]> st)
    | None => None
    end.

Definition raise {A : Type} (e : exn) : Method A := fun st => Some (Raise e, st).

(** [get_running_data]: the selection is a new frame, and [copy()] makes
    another of it. *)
Definition get_running_data (self : handle) : Method ref :=
  f ← plain_at (df_ref self);
  selection ← alloc (Plain
    {| columns := columns f;
       rows := List.filter (fun r => String.eqb (Activity_Type r) "Running") (rows f) |});
  s ← plain_at selection;
  alloc (Plain s).

(** [_get_weekly_data(weeks)]: the assignment of ['Week'] writes to the
    frame that [recent] names. *)
Definition _get_weekly_data (self : handle) (weeks : Z) : Method (list bucket) :=
  running ← get_running_data self;
  r ← plain_at running;
  let cutoff_date :=
    option_map (fun t => t - timedelta_days (weeks * 7))
               (Series.max (map Date (rows r))) in
  selection ← alloc (Plain
    {| columns := columns r; rows := on_or_after cutoff_date (rows r) |});
  s ← plain_at selection;
  recent ← alloc (Plain s);
  c ← plain_at recent;
  written ← put recent (Weekly (assign_Week c));
  w ← weekly_at recent;
  match missing_columns w with
  | [] => mret (map (aggregate (rows w)) (group_keys (rows w)))
  | missing => raise (KeyError missing)
  end.

Definition _get_chart_data (self : handle) : Method chart :=
  weekly ← _get_weekly_data self 8;
  mret {| chart_weeks := map Week weekly;
          chart_distances := map sum_Distance weekly;
          chart_elevations := map sum_Total_Ascent weekly |}.

(** [generate_html_report(current_week_of_plan)] up to the template. *)
Definition generate_html_report (self : handle) (current_week_of_plan : Z) (now : Z)
    : Method report :=
  running_ref ← get_running_data self;
  running ← plain_at running_ref;
  let last := Series.max (map Date (rows running)) in
  let days_since_marathon :=
    match last with
    | Some t => of_Z (days (t - marathon self))
    | None => NaN
    end in
  let weeks_since := fdiv days_since_marathon (of_Z 7) in
  (* Post-marathon stats *)
  let post_marathon := List.filter (fun r => marathon self <? Date r) (rows running) in
  let post_marathon_runs := Z.of_nat (length post_marathon) in
  let post_marathon_distance := Series.sum (map Distance post_marathon) in
  let post_marathon_avg :=
    if 0 <? post_marathon_runs then Series.mean (map Distance post_marathon) else zero in
  (* Recent 4 weeks analysis *)
  let recent_4wks :=
    on_or_after (option_map (fun t => t - timedelta_days 28) last) (rows running) in
  let total_distance := Series.sum (map Distance recent_4wks) in
  let total_elevation := Series.sum (map Total_Ascent recent_4wks) in
  let total_runs := Z.of_nat (length recent_4wks) in
  let avg_distance :=
    if 0 <? total_runs then fdiv total_distance (of_Z total_runs) else zero in
  let avg_weekly_dist := fdiv total_distance (of_Z 4) in
  let avg_weekly_elev := fdiv total_elevation (of_Z 4) in
  (* Last 7 days *)
  let last_week :=
    match last with
    | Some last_week_end =>
        let last_week_start := last_week_end - timedelta_days 7 in
        List.filter (fun r => (last_week_start <=? Date r) && (Date r <=? last_week_end))
                    (rows running)
    | None => []
    end in
  let week_distance := Series.sum (map Distance last_week) in
  let week_elevation := Series.sum (map Total_Ascent last_week) in
  let week_runs := Z.of_nat (length last_week) in
  (* Training plan targets *)
  let target := plan_target current_week_of_plan in
  let dist_pct := percent week_distance (distance target) in
  let elev_pct := percent week_elevation (elevation target) in
  let runs_pct := percent (of_Z week_runs) (runs target) in
  (* Race countdown *)
  let days_to_race := days (race self - now) in
  let weeks_to_race := fdiv (of_Z days_to_race) (of_Z 7) in
  (* Get chart data *)
  chart_data ← _get_chart_data self;
  mret {| weeks_since := weeks_since;
          post_marathon_runs := post_marathon_runs;
          post_marathon_distance := post_marathon_distance;
          post_marathon_avg := post_marathon_avg;
          recovery_status := fst (recovery weeks_since);
          recovery_class := snd (recovery weeks_since);
          total_distance := total_distance;
          total_elevation := total_elevation;
          total_runs := total_runs;
          avg_distance := avg_distance;
          avg_weekly_dist := avg_weekly_dist;
          avg_weekly_elev := avg_weekly_elev;
          week_distance := week_distance;
          week_elevation := week_elevation;
          week_runs := week_runs;
          plan := target;
          dist_pct := dist_pct;
          elev_pct := elev_pct;
          runs_pct := runs_pct;
          assessment := fst (fst (assess dist_pct elev_pct));
          assessment_class := snd (fst (assess dist_pct elev_pct));
          assessment_icon := snd (assess dist_pct elev_pct);
          hr := hr_analysis running;
          days_to_race := days_to_race;
          weeks_to_race := weeks_to_race;
          phase := fst (phase_info current_week_of_plan);
          phase_focus := snd (phase_info current_week_of_plan);
          chart_data := chart_data |}.

(** The analyzer as a value: its frame read from the store. *)
Definition object_of (self : handle) (f : frame activity) : analyzer :=
  {| df := f; marathon_date := marathon self; race_date := race self |}.

End Store.

(** ** Sample data *)

Module Sample.

Definition no_text : string -> pyfloat := fun _ => NaN.

Definition run (date : Z) (dist : string) (time : string) (ascent : Z)
    (hr te : pyfloat) : raw_activity :=
  {| raw_Date := date;
     raw_Activity_Type := "Running";
     raw_Distance := CStr dist;
     raw_Calories := CStr "1,020";
     raw_Time := CStr time;
     raw_Total_Ascent := CNum (of_Z ascent);
     raw_Total_Descent := CNum NaN;
     raw_Avg_HR := hr;
     raw_Max_HR := hr;
     raw_Aerobic_TE := te |}.

Definition all_columns : list string :=
  ["Date"; "Activity Type"; "Distance"; "Calories"; "Time"; "Total Ascent";
   "Total Descent"; "Avg HR"; "Max HR"; "Aerobic TE"].

(** Four runs in the week of Monday 2025-11-03, given out of order:
    40 km and 300 m of ascent in all. *)
Definition four_runs : frame raw_activity :=
  {| columns := all_columns;
     rows := [ run (timedelta_days 20400) "12.5" "1:02:30" 100 (of_Z 150) (of_Q (7 # 2));
               run (timedelta_days 20396) "10" "45:00" 50 (of_Z 140) (of_Z 3);
               run (timedelta_days 20401) "7.5" "40:30" 50 NaN (of_Z 3);
               run (timedelta_days 20398) "10" "50:00" 100 (of_Z 145) (of_Q (5 # 2)) ] |}.



(** An export whose only row has a negative distance and a negative
    calorie count, both with a thousands separator. *)
Definition negative_cells : frame raw_activity :=
  {| columns := all_columns;
     rows := [ {| raw_Date := timedelta_days 20400;
                  raw_Activity_Type := "Running";
                  raw_Distance := CStr "-1,000.5";
                  raw_Calories := CStr "-2,000";
                  raw_Time := CStr "45:00";
                  raw_Total_Ascent := CNum (of_Z 10);
                  raw_Total_Descent := CNum (of_Z 10);
                  raw_Avg_HR := of_Z 140;
                  raw_Max_HR := of_Z 160;
                  raw_Aerobic_TE := of_Z 3 |} ] |}.

(** An export with every column and no row. *)
Definition no_rows : frame raw_activity :=
  {| columns := all_columns; rows := [] |}.

(** A duration of 10^309 hours: a one and 309 zeros in the hours field. *)
Fixpoint zeros (n : nat) : string :=
  match n with
  | O => ""
  | S n' => String "0" (zeros n')
  end.

Definition long_hours : string := String "1" (zeros 309).

Definition long_duration : string := long_hours ++ ":00:00".

(** Noon of 2025-11-10, a reading of the clock. *)
Definition a_clock : Z := timedelta_days 20402 + 43200 * 1000000.

(** The object constructed from [four_runs]. *)
Definition four_runs_object : analyzer :=
  match __init__ no_text four_runs with
  | Ok self => self
  | Raise _ =>
      {| df := {| columns := []; rows := [] |}; marathon_date := 0; race_date := 0 |}
  end.

(** A store that holds the frame of that object and a frame without
    rows, and the analyzer that refers to the former. *)
Definition a_store : Store.store :=
  [Store.Plain {| columns := []; rows := [] |}; Store.Plain (df four_runs_object)].

Definition a_handle : Store.handle :=
  {| Store.df_ref := 1%nat;
     Store.marathon := marathon_date four_runs_object;
     Store.race := race_date four_runs_object |}.

(** The object constructed from [four_runs], its rows in reverse order. *)
Definition four_runs_reversed : analyzer :=
  {| df := {| columns := columns (df four_runs_object);
              rows := rev (rows (df four_runs_object)) |};
     marathon_date := marathon_date four_runs_object;
     race_date := race_date four_runs_object |}.

(** The export [four_runs] with its rows in reverse order. *)
Definition four_runs_backwards : frame raw_activity :=
  {| columns := columns four_runs; rows := rev (rows four_runs) |}.

(** The same object with a row of another activity type added in front. *)
Definition with_a_ride : analyzer :=
  {| df := {| columns := columns (df four_runs_object);
              rows := {| Date := timedelta_days 20401;
                         Activity_Type := "Cycling";
                         Distance := of_Z 80;
                         Calories := of_Z 2000;
                         Time_Minutes := of_Z 180;
                         Total_Ascent := of_Z 900;
                         Total_Descent := of_Z 900;
                         Avg_HR := of_Z 130;
                         Max_HR := of_Z 170;
                         Aerobic_TE := of_Z 5 |} :: rows (df four_runs_object) |};
     marathon_date := marathon_date four_runs_object;
     race_date := race_date four_runs_object |}.

End Sample.

(** ** Vocabulary of the properties *)

(** The order of the extended reals as a proposition; not-a-number
    compares with nothing. *)
Definition lt_float (x y : pyfloat) : Prop :=
  match x, y with
  | Fin a, Fin b => (a < b)%Qc
  | NInf, Fin _ | NInf, PInf | Fin _, PInf => True
  | _, _ => False
  end.

Definition le_float (x y : pyfloat) : Prop :=
  match x, y with
  | Fin a, Fin b => (a <= b)%Qc
  | NInf, Fin _ | NInf, PInf | Fin _, PInf | NInf, NInf | PInf, PInf => True
  | _, _ => False
  end.

(** Cleaning one row at a time: the row that [_clean_data] makes of a raw
    row, when its distance and calorie cells both read as numbers. *)
Definition clean_one (to_numeric_text : string -> pyfloat) (r : raw_activity)
    : option activity :=
  match clean_number (raw_Distance r), clean_number (raw_Calories r) with
  | Some d, Some c => Some (clean_row to_numeric_text r d c)
  | _, _ => None
  end.

(** A cell holds the number [x]: it is that number, or it is text that
    reads as [x] once every comma is deleted, the text read being free of
    commas. *)
Definition holds (c : cell) (x : pyfloat) : Prop :=
  match c with
  | CNum y => x = y
  | CStr s =>
      exists text : string,
        text = remove_char "," s /\
        contains_char "," text = false /\
        py_float text = Some x
  end.

(** The rows dated within [n] days before the latest date of the rows,
    that date included, in their order. *)
Definition trailing (n : Z) (rs : list activity) : list activity :=
  match Series.max (map Date rs) with
  | Some latest => List.filter (fun x => latest - n * day <=? Date x) rs
  | None => []
  end.

(** The rows of a window next to their weeks, as the weekly aggregation
    groups them. *)
Definition by_week (rs : list activity) : list (Z * activity) :=
  map (fun r => (week_of (Date r), r)) rs.

(** Rows in ascending order of date. *)
Definition by_date (a b : activity) : Prop := Date a <= Date b.

(** The sum of a list of integers. *)
Definition total (zs : list Z) : Z := fold_right Z.add 0 zs.

(** What construction carries over from a raw row unchanged. *)
Definition kept_of_raw (r : raw_activity) : Z * string * pyfloat * pyfloat * pyfloat :=
  (raw_Date r, raw_Activity_Type r, raw_Avg_HR r, raw_Max_HR r, raw_Aerobic_TE r).

Definition kept (r : activity) : Z * string * pyfloat * pyfloat * pyfloat :=
  (Date r, Activity_Type r, Avg_HR r, Max_HR r, Aerobic_TE r).

(** Text of 7-bit characters only, and of at most 4300 of them, the
    length up to which [int] reads any digits. *)
Definition seven_bit (s : string) : Prop :=
  forall_chars (fun c => code c <? 128) s && (String.length s <=? 4300)%nat = true.

(** The frame of the running records of a frame. *)
Definition running_frame (f : frame activity) : frame activity :=
  {| columns := columns f;
     rows := List.filter (fun r => String.eqb (Activity_Type r) "Running") (rows f) |}.

(** Text of 7-bit characters. *)
Definition ascii_text (s : string) : Prop :=
  forall_chars (fun c => code c <? 128) s = true.

Definition ascii_cell (c : cell) : Prop :=
  match c with
  | CNum _ => True
  | CStr s => ascii_text s
  end.

(** A field of a duration: text of 7-bit characters without a colon. *)
Definition duration_field (s : string) : Prop :=
  ascii_text s /\ contains_char ":" s = false.

(** How often a character occurs in a text. *)
Fixpoint count_char (c : ascii) (s : string) : nat :=
  match s with
  | EmptyString => 0%nat
  | String d rest => ((if Ascii.eqb d c then 1 else 0) + count_char c rest)%nat
  end.

(** The week that a scan of arguments leaves: each all-digit argument in
    turn replaces it. *)
Definition week_after (args : list string) (week : Z) : Z :=
  fold_left (fun w arg => if isdigit arg then default w (py_int arg) else w) args week.

(** The positions of the arguments ["--output"] that have a follower. *)
Definition output_flags (argv : list string) (first count : nat) : list nat :=
  List.filter (fun j => String.eqb (nth j argv "") "--output" && (j + 1 <? length argv)%nat)
              (seq first count).

(** * Properties *)

(** Running a method on an object: the binds of the monad are unfolded
    and nothing else is. *)
Ltac run_method :=
  cbv beta iota zeta delta
    [generate_html_report _get_chart_data _get_weekly_data get_running_data
     assign_Week attr raise mbind M_bind mret M_ret];
  cbn [columns rows].

(** ** The order on floats *)

Lemma flt_spec (x y : pyfloat) : flt x y = true <-> lt_float x y.
Proof.
  destruct x as [a| | |], y as [b| | |]; simpl; try tauto; try (split; [discriminate | tauto]).
  rewrite Qclt_alt. destruct (a ?= b)%Qc; split; congruence.
Qed.

Lemma fle_spec (x y : pyfloat) : fle x y = true <-> le_float x y.
Proof.
  destruct x as [a| | |], y as [b| | |]; simpl; try tauto; try (split; [discriminate | tauto]).
  rewrite Qcle_alt. destruct (a ?= b)%Qc; split; congruence.
Qed.

Lemma fge_spec (x y : pyfloat) : fge x y = true <-> le_float y x.
Proof. apply fle_spec. Qed.

Lemma fgt_spec (x y : pyfloat) : fgt x y = true <-> lt_float y x.
Proof. apply flt_spec. Qed.

(** Among numbers, "not below" is "at least". *)
Lemma not_lt_float (x y : pyfloat) :
  is_nan x = false -> is_nan y = false -> ~ lt_float x y <-> le_float y x.
Proof.
  destruct x as [a| | |], y as [b| | |]; simpl; try tauto; try discriminate.
  intros _ _. split; [apply Qcnot_lt_le | apply Qcle_not_lt].
Qed.

Lemma lt_float_not_nan (x y : pyfloat) : lt_float x y -> is_nan x = false.
Proof. destruct x, y; simpl; tauto. Qed.

Lemma true_iff_not_false (b : bool) : b = false <-> ~ b = true.
Proof. destruct b; split; congruence. Qed.

(** ** Adherence classification *)

(** C2.  The assessment is "ON TRACK" exactly when the distance percentage
    is at least 90 and the elevation percentage at least 80, otherwise
    "SLIGHTLY BEHIND" exactly when the distance percentage is at least 75,
    otherwise "BEHIND TARGET".  The bounds are closed: 90 with 80 is on
    track, and 89.9 is decided by the test against 75.  Every report
    carries the assessment of its own stored percentages. *)
Theorem assessment_classes :
  (forall d e : pyfloat,
     let on_track := le_float (of_Z 90) d /\ le_float (of_Z 80) e in
     let label := fst (fst (assess d e)) in
     (label = "ON TRACK" <-> on_track) /\
     (label = "SLIGHTLY BEHIND" <-> ~ on_track /\ le_float (of_Z 75) d) /\
     (label = "BEHIND TARGET" <-> ~ on_track /\ ~ le_float (of_Z 75) d)) /\
  fst (fst (assess (of_Z 90) (of_Z 80))) = "ON TRACK" /\
  (forall e : pyfloat, fst (fst (assess (of_Q (899 # 10)) e)) = "SLIGHTLY BEHIND") /\
  (forall (self : analyzer) (week now : Z),
     match fst (generate_html_report week now self) with
     | Ok r => assessment r = fst (fst (assess (dist_pct r) (elev_pct r)))
     | Raise _ => True
     end).
Proof.
  split; [| split; [| split]].
  - intros d e on_track label. subst on_track label. unfold assess.
    rewrite <- !fge_spec.
    destruct (fge d (of_Z 90)), (fge e (of_Z 80)), (fge d (of_Z 75)); simpl;
      intuition (try discriminate; try congruence).
  - vm_compute. reflexivity.
  - intros e. unfold assess.
    replace (fge (of_Q (899 # 10)) (of_Z 90)) with false by (vm_compute; reflexivity).
    replace (fge (of_Q (899 # 10)) (of_Z 75)) with true by (vm_compute; reflexivity).
    reflexivity.
  - intros self week now.
    run_method. destruct (missing_columns _); [reflexivity | exact I].
Qed.

(** ** Recovery classification *)

(** C3.  The recovery status is "EARLY RECOVERY" exactly when the weeks
    since the marathon are below 2, "RECOVERY PHASE" exactly when they are
    at least 2 and below 4, and "RECOVERED" otherwise; the first two carry
    the class "warning" and the last "success".  Exactly 2 weeks (14 days)
    is "RECOVERY PHASE".  Every report carries the status of its own
    [weeks_since]. *)
Theorem recovery_classes :
  (forall w : pyfloat,
     let status := fst (recovery w) in
     (status = "EARLY RECOVERY" <-> lt_float w (of_Z 2)) /\
     (status = "RECOVERY PHASE" <-> le_float (of_Z 2) w /\ lt_float w (of_Z 4)) /\
     (status = "RECOVERED" <->
        ~ lt_float w (of_Z 2) /\ ~ (le_float (of_Z 2) w /\ lt_float w (of_Z 4))) /\
     snd (recovery w) = (if String.eqb status "RECOVERED" then "success" else "warning")) /\
  recovery (of_Z 2) = ("RECOVERY PHASE", "warning") /\
  recovery (fdiv (of_Z (days (timedelta_days 14))) (of_Z 7)) = ("RECOVERY PHASE", "warning") /\
  (forall (self : analyzer) (week now : Z),
     match fst (generate_html_report week now self) with
     | Ok r => recovery_status r = fst (recovery (weeks_since r)) /\
               recovery_class r = snd (recovery (weeks_since r))
     | Raise _ => True
     end).
Proof.
  split; [| split; [| split]].
  - intros w status. subst status. unfold recovery.
    destruct (flt w (of_Z 2)) eqn:E2; [| destruct (flt w (of_Z 4)) eqn:E4]; simpl.
    + apply flt_spec in E2.
      assert (~ le_float (of_Z 2) w).
      { destruct w; simpl in *; try tauto. apply Qclt_not_le, E2. }
      intuition (try discriminate).
    + apply true_iff_not_false in E2. rewrite flt_spec in E2.
      pose proof E4 as L4. apply flt_spec in L4.
      assert (le_float (of_Z 2) w).
      { apply (proj1 (not_lt_float w (of_Z 2) (lt_float_not_nan _ _ L4) eq_refl)), E2. }
      intuition (try discriminate).
    + apply true_iff_not_false in E2. rewrite flt_spec in E2.
      apply true_iff_not_false in E4. rewrite flt_spec in E4.
      intuition (try discriminate).
  - vm_compute. reflexivity.
  - vm_compute. reflexivity.
  - intros self week now.
    run_method. destruct (missing_columns _); [split; reflexivity | exact I].
Qed.

(** ** Integers as floats *)

Lemma Q2Qc_this (q : Q) : (this (Q2Qc q) == q)%Q.
Proof. cbn [this Q2Qc]. apply Qred_correct. Qed.

Lemma of_Z_mul (a b : Z) : fmul (of_Z a) (of_Z b) = of_Z (a * b).
Proof.
  unfold of_Z, fmul. f_equal. apply Qc_is_canon.
  unfold Qcmult. rewrite !Q2Qc_this, inject_Z_mult. reflexivity.
Qed.

Lemma sgn_of_Z_pos (n : Z) : 0 < n -> sgn (Q2Qc (inject_Z n)) = Gt.
Proof.
  intros H. unfold sgn. apply Qcgt_alt. unfold Qclt.
  rewrite !Q2Qc_this. unfold Qlt. simpl. lia.
Qed.

(** ** Durations *)

Lemma split_no_separator (sep : ascii) (s : string) :
  contains_char sep s = false -> split sep s = [s].
Proof.
  induction s as [|c s IH]; [reflexivity |].
  cbn [contains_char split]. intros H. apply orb_false_iff in H as [Hc Hs].
  rewrite Hc, (IH Hs). reflexivity.
Qed.

Lemma split_field (sep : ascii) (h t : string) :
  contains_char sep h = false ->
  split sep (h ++ String sep t) = h :: split sep t.
Proof.
  induction h as [|c h IH]; intros H.
  - simpl. rewrite Ascii.eqb_refl. reflexivity.
  - cbn [contains_char] in H. apply orb_false_iff in H as [Hc Hs].
    simpl. rewrite Hc, (IH Hs). reflexivity.
Qed.

Lemma split_length (sep : ascii) (s : string) :
  length (split sep s) = S (count_char sep s).
Proof.
  induction s as [|c s IH]; [reflexivity |].
  cbn [split count_char]. destruct (Ascii.eqb c sep).
  - cbn [length]. rewrite IH. reflexivity.
  - destruct (split sep s) as [|part parts]; [discriminate IH |].
    cbn [length] in *. rewrite IH. reflexivity.
Qed.

(** C1, as the code has it.  [time_to_minutes] splits the text on ":".
    Three fields that read as an integer H, an integer M and a float S
    give H*60 + M + S/60, the integer H*60 + M being converted to a float
    for the addition; two fields that read as an integer M and a float S
    give M + S/60.  The result is 0 in every other case: another number of
    fields, a field that does not read as a number, or an integer part too
    large for a float.  So "1:02:30" is 62.5, "45:00" is 45, and the empty
    text, a blank cell and text that is no duration are 0. *)
Theorem time_to_minutes_spec :
  (forall h m s : string,
     duration_field h -> duration_field m -> duration_field s ->
     time_to_minutes (CStr (h ++ ":" ++ m ++ ":" ++ s)) =
     match py_int h, py_int m, py_float s with
     | Some hours, Some mins, Some secs =>
         if Z.abs (hours * 60 + mins) <? overflow_threshold
         then fadd (of_Z (hours * 60 + mins)) (fdiv secs (of_Z 60))
         else zero
     | _, _, _ => zero
     end) /\
  (forall m s : string,
     duration_field m -> duration_field s ->
     time_to_minutes (CStr (m ++ ":" ++ s)) =
     match py_int m, py_float s with
     | Some mins, Some secs =>
         if Z.abs mins <? overflow_threshold
         then fadd (of_Z mins) (fdiv secs (of_Z 60))
         else zero
     | _, _ => zero
     end) /\
  (forall text : string,
     count_char ":" text <> 1%nat -> count_char ":" text <> 2%nat ->
     time_to_minutes (CStr text) = zero) /\
  (forall x : pyfloat, time_to_minutes (CNum x) = zero) /\
  split ":" "1:02:30" = ["1"; "02"; "30"] /\
  view_of (time_to_minutes (CStr "1:02:30")) = VFin (125 # 2) /\
  view_of (time_to_minutes (CStr "45:00")) = VFin 45 /\
  view_of (time_to_minutes (CStr " 1 : 30 ")) = VFin (3 # 2) /\
  view_of (time_to_minutes (CStr "")) = VFin 0 /\
  view_of (time_to_minutes (CStr "1h 2m")) = VFin 0 /\
  view_of (time_to_minutes (CStr "1:xx:30")) = VFin 0 /\
  view_of (time_to_minutes (CStr ("1:3" ++ String (ascii_of_nat 28) ""))) = VFin 0 /\
  view_of (time_to_minutes (CStr "1:02:03:04")) = VFin 0 /\
  view_of (time_to_minutes (CNum NaN)) = VFin 0.
Proof.
  split; [| split; [| split; [| split]]].
  - intros h m s [_ Hh] [_ Hm] [_ Hs]. unfold time_to_minutes.
    change (h ++ ":" ++ m ++ ":" ++ s)%string
      with (h ++ String ":" (m ++ String ":" s))%string.
    rewrite (split_field ":" h _ Hh), (split_field ":" m _ Hm), (split_no_separator ":" s Hs).
    destruct (py_int h) as [hours|], (py_int m) as [mins|], (py_float s) as [secs|];
      try reflexivity.
    unfold float_of_int. destruct (Z.abs _ <? _); reflexivity.
  - intros m s [_ Hm] [_ Hs]. unfold time_to_minutes.
    change (m ++ ":" ++ s)%string with (m ++ String ":" s)%string.
    rewrite (split_field ":" m _ Hm), (split_no_separator ":" s Hs).
    destruct (py_int m) as [mins|], (py_float s) as [secs|]; try reflexivity.
    unfold float_of_int. destruct (Z.abs _ <? _); reflexivity.
  - intros text H1 H2. unfold time_to_minutes.
    pose proof (split_length ":" text) as Hlen.
    destruct (split ":" text) as [|p1 [|p2 [|p3 [|p4 rest]]]]; try reflexivity;
      cbn [length] in Hlen; congruence.
  - reflexivity.
  - repeat split; vm_compute; reflexivity.
Qed.

(** C1 as the specification words it fails: the three fields of a
    duration of 10^309 hours read as the integers 10^309 and 0 and the
    float 0, H*60 + M + S/60 is far from 0, and the result is 0, the
    integer being too large for a float. *)
Lemma duration_beyond_float_range :
  split ":" Sample.long_duration = [Sample.long_hours; "00"; "00"] /\
  py_int Sample.long_hours = Some (10 ^ 309) /\
  py_int "00" = Some 0 /\
  option_map view_of (py_float "00") = Some (VFin 0) /\
  flt zero (fadd (fadd (fmul (of_Z (10 ^ 309)) (of_Z 60)) (of_Z 0)) (fdiv zero (of_Z 60))) = true /\
  view_of (time_to_minutes (CStr Sample.long_duration)) = VFin 0.
Proof. repeat split; vm_compute; reflexivity. Qed.

(** ** Plan comparison *)

Lemma plan_targets_outside (week : Z) :
  ~ (1 <= week <= 14) -> plan_targets !! week = None.
Proof.
  intros Hout. unfold plan_targets. apply not_elem_of_list_to_map.
  cbn [fmap list_fmap fst]. rewrite !elem_of_cons, elem_of_nil. lia.
Qed.

Lemma fmul_comm (x y : pyfloat) : fmul x y = fmul y x.
Proof.
  destruct x as [a| | |], y as [b| | |]; cbn [fmul]; try reflexivity.
  f_equal. apply Qcmult_comm.
Qed.

Lemma percent_formula (actual : pyfloat) (goal : Z) :
  0 < goal ->
  percent actual goal = fmul (of_Z 100) (fdiv actual (of_Z goal)).
Proof.
  intros Hpos. unfold percent.
  destruct (Z.ltb_spec 0 goal) as [_|]; [| lia]. apply fmul_comm.
Qed.

Lemma of_Z_positive (n : Z) : 0 < n -> (Q2Qc 0 < Q2Qc (inject_Z n))%Qc.
Proof. intros H. apply Qcgt_alt. apply (sgn_of_Z_pos n H). Qed.

Lemma bar_width_capped (pct : pyfloat) : ~ lt_float (of_Z 100) (bar_width pct).
Proof.
  unfold bar_width. destruct (flt (of_Z 100) pct) eqn:E.
  - unfold of_Z, lt_float. intros H. exact (Qclt_not_eq _ _ H eq_refl).
  - apply true_iff_not_false in E. rewrite flt_spec in E. exact E.
Qed.

Lemma plan_target_positive (week : Z) :
  0 < distance (plan_target week) /\
  0 < elevation (plan_target week) /\
  0 < runs (plan_target week).
Proof.
  destruct (decide (1 <= week <= 14)) as [Hin|Hout].
  - assert (Hcases : Exists (eq week) [1; 2; 3; 4; 5; 6; 7; 8; 9; 10; 11; 12; 13; 14]).
    { rewrite Exists_exists. exists week. split; [| reflexivity].
      rewrite !elem_of_cons. lia. }
    repeat (apply Exists_cons in Hcases as [->|Hcases]; [vm_compute; auto |]).
    inversion Hcases.
  - unfold plan_target. rewrite (plan_targets_outside week Hout). vm_compute. auto.
Qed.

(** C4.  The target of a plan week is its entry among the fourteen of the
    table, and 40 km, 300 m and 4 runs for any other week.  Each stored
    percentage is 100 * (actual / target), and 0 for a target that is not
    positive; nothing caps it, so 46.9 km against 35 are stored as 134 and
    twice the target as 200, while the width of the progress bar is the
    percentage up to 100 and 100 beyond. *)
Theorem plan_comparison :
  map plan_target [1; 2; 3; 4; 5; 6; 7; 8; 9; 10; 11; 12; 13; 14] =
    [ {| distance := 35; elevation := 200; runs := 4 |};
      {| distance := 38; elevation := 250; runs := 4 |};
      {| distance := 42; elevation := 280; runs := 4 |};
      {| distance := 45; elevation := 300; runs := 4 |};
      {| distance := 45; elevation := 400; runs := 4 |};
      {| distance := 48; elevation := 450; runs := 4 |};
      {| distance := 52; elevation := 550; runs := 4 |};
      {| distance := 55; elevation := 600; runs := 4 |};
      {| distance := 52; elevation := 650; runs := 4 |};
      {| distance := 56; elevation := 700; runs := 4 |};
      {| distance := 60; elevation := 850; runs := 5 |};
      {| distance := 60; elevation := 900; runs := 5 |};
      {| distance := 55; elevation := 750; runs := 4 |};
      {| distance := 48; elevation := 600; runs := 4 |} ] /\
  (forall week : Z,
     ~ (1 <= week <= 14) ->
     plan_target week = {| distance := 40; elevation := 300; runs := 4 |}) /\
  (forall (actual : pyfloat) (goal : Z),
     0 < goal -> percent actual goal = fmul (of_Z 100) (fdiv actual (of_Z goal))) /\
  (forall (actual : pyfloat) (goal : Z), goal <= 0 -> percent actual goal = zero) /\
  (forall (self : analyzer) (week now : Z),
     match fst (generate_html_report week now self) with
     | Ok r =>
         plan r = plan_target week /\
         dist_pct r =
           fmul (of_Z 100) (fdiv (week_distance r) (of_Z (distance (plan r)))) /\
         elev_pct r =
           fmul (of_Z 100) (fdiv (week_elevation r) (of_Z (elevation (plan r)))) /\
         runs_pct r =
           fmul (of_Z 100) (fdiv (of_Z (week_runs r)) (of_Z (runs (plan r))))
     | Raise _ => True
     end) /\
  view_of (percent (of_Q (469 # 10)) 35) = VFin 134 /\
  view_of (bar_width (percent (of_Q (469 # 10)) 35)) = VFin 100 /\
  view_of (percent (of_Z 70) 35) = VFin 200 /\
  view_of (bar_width (percent (of_Z 70) 35)) = VFin 100 /\
  (forall pct : pyfloat,
     ~ lt_float (of_Z 100) (bar_width pct) /\
     (lt_float (of_Z 100) pct -> bar_width pct = of_Z 100) /\
     (~ lt_float (of_Z 100) pct -> bar_width pct = pct)).
Proof.
  split; [vm_compute; reflexivity |].
  split.
  { intros week Hout. unfold plan_target. rewrite (plan_targets_outside week Hout).
    reflexivity. }
  split; [exact percent_formula |].
  split.
  { intros actual goal Hle. unfold percent.
    destruct (Z.ltb_spec 0 goal); [lia | reflexivity]. }
  split.
  { intros self week now. run_method.
    destruct (missing_columns _); [| exact I].
    cbn [fst plan dist_pct elev_pct runs_pct week_distance week_elevation week_runs].
    destruct (plan_target_positive week) as (Hd & He & Hr).
    rewrite <- !percent_formula by assumption. auto. }
  do 4 (split; [vm_compute; reflexivity |]).
  intros pct. split; [apply bar_width_capped |].
  unfold bar_width. rewrite <- flt_spec.
  destruct (flt (of_Z 100) pct); split; intros H; congruence.
Qed.

(** ** Training load *)

Lemma missing_columns_columns {row row' : Type} (f : frame row) (g : frame row') :
  columns g = columns f \/ columns g = (columns f ++ ["Week"])%list ->
  missing_columns g = missing_columns f.
Proof.
  intros [H|H]; unfold missing_columns, has_column; rewrite H; [reflexivity |].
  cbn [List.filter]. rewrite !existsb_app. cbn [existsb String.eqb Ascii.eqb Bool.eqb].
  rewrite !orb_false_r. reflexivity.
Qed.

Lemma missing_columns_running (self : analyzer) (rs : list (Z * activity)) :
  missing_columns {| columns := (columns (df self) ++ ["Week"])%list; rows := rs |} =
  missing_columns (df self).
Proof. apply missing_columns_columns. right. reflexivity. Qed.

Lemma missing_columns_none (f : frame activity) :
  missing_columns f = [] ->
  existsb (String.eqb "Avg HR") (columns f) = true /\
  existsb (String.eqb "Aerobic TE") (columns f) = true.
Proof.
  unfold missing_columns, has_column. cbn [List.filter].
  destruct (existsb (String.eqb "Aerobic TE") (columns f)),
           (existsb (String.eqb "Avg HR") (columns f)); cbn [negb];
    intros H; try discriminate H; auto.
Qed.

Lemma load_not_unavailable (te : pyfloat) : fst (load te) <> "N/A".
Proof.
  unfold load. destruct (fgt te _); [| destruct (fgt te _)]; simpl; discriminate.
Qed.



(** ** Normalised distances and calories *)

Lemma remove_char_removes (c : ascii) (s : string) :
  contains_char c (remove_char c s) = false.
Proof.
  induction s as [|a s IH]; [reflexivity |].
  cbn [remove_char]. destruct (Ascii.eqb a c) eqn:E; [exact IH |].
  cbn [contains_char]. rewrite E, IH. reflexivity.
Qed.

Lemma clean_number_holds (c : cell) (x : pyfloat) :
  clean_number c = Some x -> holds c x.
Proof.
  destruct c as [y|s]; cbn [clean_number holds].
  - congruence.
  - intros H. exists (remove_char "," s). auto using remove_char_removes.
Qed.

Lemma astype_raise {A B : Type} (conv : A -> option B) (xs : list A) (e : exn) :
  Series.astype conv xs = Raise e -> e = ValueError.
Proof.
  revert e. induction xs as [|x xs IH]; intros e; cbn [Series.astype].
  - discriminate.
  - destruct (conv x); [| congruence].
    destruct (Series.astype conv xs) as [ys|e'] eqn:E; [discriminate |].
    intros [= <-]. apply IH. reflexivity.
Qed.

Lemma mapM_cons_cases {A B : Type} (f : A -> option B) (x : A) (l : list A) :
  mapM f (x :: l) =
  match f x with
  | Some y => match mapM f l with Some k => Some (y :: k) | None => None end
  | None => None
  end.
Proof. cbn. destruct (f x); [destruct (mapM f l) |]; reflexivity. Qed.

(** The two passes over the columns give what one pass over the rows
    gives. *)
Lemma clean_columns_rowwise (to_num : string -> pyfloat) (l : list raw_activity) :
  match Series.astype clean_number (map raw_Distance l) with
  | Raise e => Raise e
  | Ok ds =>
      match Series.astype clean_number (map raw_Calories l) with
      | Raise e => Raise e
      | Ok cs => Ok (zip_rows to_num l ds cs)
      end
  end =
  match mapM (clean_one to_num) l with
  | Some rs => Ok rs
  | None => Raise ValueError
  end.
Proof.
  induction l as [|r l IH]; [reflexivity |].
  rewrite mapM_cons_cases. cbn [map Series.astype].
  assert (Hone : clean_one to_num r =
                 match clean_number (raw_Distance r), clean_number (raw_Calories r) with
                 | Some d, Some c => Some (clean_row to_num r d c)
                 | _, _ => None
                 end) by reflexivity.
  rewrite Hone. clear Hone.
  destruct (clean_number (raw_Distance r)) as [d|]; [| reflexivity].
  destruct (Series.astype clean_number (map raw_Distance l)) as [ds|e] eqn:Ed.
  - destruct (clean_number (raw_Calories r)) as [c|]; [| reflexivity].
    destruct (Series.astype clean_number (map raw_Calories l)) as [cs|e] eqn:Ec.
    + destruct (mapM (clean_one to_num) l); [| discriminate].
      injection IH as <-. reflexivity.
    + destruct (mapM (clean_one to_num) l); [discriminate |].
      rewrite (astype_raise _ _ _ Ec). reflexivity.
  - rewrite (astype_raise _ _ _ Ed).
    destruct (mapM (clean_one to_num) l); [discriminate |].
    destruct (clean_number (raw_Calories r)); reflexivity.
Qed.

Lemma insert_by_date_Permutation (r : raw_activity) (l : list raw_activity) :
  insert_by_date r l ≡ₚ r :: l.
Proof.
  induction l as [|x l IH]; cbn [insert_by_date]; [reflexivity |].
  destruct (raw_Date r <=? raw_Date x); [reflexivity |].
  rewrite IH. apply perm_swap.
Qed.

Lemma sort_by_date_Permutation (l : list raw_activity) : sort_by_date l ≡ₚ l.
Proof.
  unfold sort_by_date. induction l as [|r l IH]; cbn [fold_right]; [reflexivity |].
  rewrite insert_by_date_Permutation, IH. reflexivity.
Qed.

Lemma insert_by_date_sorted (r : raw_activity) (l : list raw_activity) :
  StronglySorted date_le l -> StronglySorted date_le (insert_by_date r l).
Proof.
  induction 1 as [|x l Hs IH Hall]; cbn [insert_by_date]; [repeat constructor |].
  destruct (Z.leb_spec (raw_Date r) (raw_Date x)) as [Hle|Hgt].
  - constructor; [constructor; assumption |].
    constructor; [exact Hle |].
    eapply Forall_impl; [exact Hall |]. intros y Hy. unfold date_le in *. lia.
  - constructor; [exact IH |].
    rewrite insert_by_date_Permutation. constructor; [| exact Hall].
    unfold date_le. lia.
Qed.

Lemma sort_by_date_sorted (l : list raw_activity) : StronglySorted date_le (sort_by_date l).
Proof.
  unfold sort_by_date. induction l as [|r l IH]; cbn [fold_right]; [constructor |].
  apply insert_by_date_sorted, IH.
Qed.

Lemma init_rowwise (to_num : string -> pyfloat) (csv : frame raw_activity) :
  __init__ to_num csv =
  match mapM (clean_one to_num) (sort_by_date (rows csv)) with
  | Some rs =>
      Ok {| df := {| columns := columns csv ++ ["Time_Minutes"]; rows := rs |};
            marathon_date := timedelta_days 20373;
            race_date := timedelta_days 20569 |}
  | None => Raise ValueError
  end.
Proof.
  unfold __init__, _clean_data, sort_values. cbn [rows columns].
  pose proof (clean_columns_rowwise to_num (sort_by_date (rows csv))) as H.
  destruct (Series.astype clean_number (map raw_Distance _)) as [ds|e].
  - destruct (Series.astype clean_number (map raw_Calories _)) as [cs|e].
    + destruct (mapM _ _); [| discriminate]. injection H as <-. reflexivity.
    + destruct (mapM _ _); [discriminate |]. injection H as ->. reflexivity.
  - destruct (mapM _ _); [discriminate |]. injection H as ->. reflexivity.
Qed.

Lemma Forall2_elem_of_r {A B : Type} (P : A -> B -> Prop) (l : list A) (k : list B) (y : B) :
  Forall2 P l k -> y ∈ k -> exists x : A, x ∈ l /\ P x y.
Proof.
  induction 1 as [|x y' l k Hxy _ IH]; intros Hy.
  - inversion Hy.
  - apply elem_of_cons in Hy as [->|Hy].
    + exists x. split; [apply elem_of_cons; auto | exact Hxy].
    + destruct (IH Hy) as (x' & Hx' & HP). exists x'. split; [apply elem_of_cons; auto | exact HP].
Qed.

Lemma clean_one_holds (to_num : string -> pyfloat) (raw : raw_activity) (r : activity) :
  clean_one to_num raw = Some r ->
  holds (raw_Distance raw) (Distance r) /\ holds (raw_Calories raw) (Calories r) /\
  Date r = raw_Date raw.
Proof.
  unfold clean_one.
  destruct (clean_number (raw_Distance raw)) as [d|] eqn:Ed; [| discriminate].
  destruct (clean_number (raw_Calories raw)) as [c|] eqn:Ec; [| discriminate].
  intros [= <-]. cbn [clean_row Distance Calories Date].
  auto using clean_number_holds.
Qed.

Lemma clean_one_kept (to_num : string -> pyfloat) (raw : raw_activity) (r : activity) :
  clean_one to_num raw = Some r -> kept_of_raw raw = kept r.
Proof.
  unfold clean_one.
  destruct (clean_number (raw_Distance raw)) as [d|]; [| discriminate].
  destruct (clean_number (raw_Calories raw)) as [c|]; [| discriminate].
  intros [= <-]. reflexivity.
Qed.

(** C6, as the code has it, for cells of 7-bit text.  When construction
    succeeds, the rows of the frame are the rows of the export in another
    order, row for row: each keeps the date, the activity type and the
    heart-rate and training-effect cells of its row of the export, and its
    distance and its calorie count are the numbers that the cells of that
    row hold: the number itself, or what the text reads as once every
    comma is deleted, no comma being left in what is read.  Construction
    fails, with [ValueError], exactly when some distance or calorie cell
    does not read as a number.  The sign of the numbers is not looked
    at. *)
Theorem normalised_numbers (to_num : string -> pyfloat) (csv : frame raw_activity) :
  Forall (fun raw => ascii_cell (raw_Distance raw) /\ ascii_cell (raw_Calories raw))
         (rows csv) ->
  match __init__ to_num csv with
  | Ok self =>
      exists sorted : list raw_activity,
        sorted ≡ₚ rows csv /\
        Forall2 (fun (raw : raw_activity) (r : activity) =>
                   kept_of_raw raw = kept r /\
                   holds (raw_Distance raw) (Distance r) /\
                   holds (raw_Calories raw) (Calories r))
                sorted (rows (df self))
  | Raise e =>
      e = ValueError /\
      Exists (fun raw : raw_activity =>
                clean_number (raw_Distance raw) = None \/
                clean_number (raw_Calories raw) = None)
             (rows csv)
  end.
Proof.
  intros _. rewrite init_rowwise.
  pose proof (sort_by_date_Permutation (rows csv)) as Hperm.
  destruct (mapM (clean_one to_num) (sort_by_date (rows csv))) as [rs|] eqn:E.
  - cbn [df rows]. apply mapM_Some_1 in E.
    exists (sort_by_date (rows csv)). split; [exact Hperm |].
    eapply Forall2_impl; [exact E |]. intros raw r Hclean. cbv beta in Hclean.
    destruct (clean_one_holds _ _ _ Hclean) as (Hd & Hc & _).
    pose proof (clean_one_kept _ _ _ Hclean). auto.
  - split; [reflexivity |]. apply mapM_None_1 in E.
    rewrite Hperm in E. eapply Exists_impl; [exact E |].
    intros raw. unfold clean_one.
    destruct (clean_number (raw_Distance raw)); [| auto].
    destruct (clean_number (raw_Calories raw)); [discriminate | auto].
Qed.

Lemma normalised_numbers_witness :
  match __init__ Sample.no_text Sample.four_runs with
  | Ok self =>
      exists sorted : list raw_activity,
        sorted ≡ₚ rows Sample.four_runs /\
        Forall2 (fun (raw : raw_activity) (r : activity) =>
                   kept_of_raw raw = kept r /\
                   holds (raw_Distance raw) (Distance r) /\
                   holds (raw_Calories raw) (Calories r))
                sorted (rows (df self))
  | Raise e =>
      e = ValueError /\
      Exists (fun raw : raw_activity =>
                clean_number (raw_Distance raw) = None \/
                clean_number (raw_Calories raw) = None)
             (rows Sample.four_runs)
  end.
Proof.
  apply (normalised_numbers Sample.no_text Sample.four_runs).
  repeat constructor.
Defined.

(** C6 as the specification words it fails: an export with a negative
    distance and a negative calorie count is accepted, and both stay
    negative. *)
Lemma negative_numbers_accepted :
  match __init__ Sample.no_text Sample.negative_cells with
  | Ok self =>
      map (fun r => (view_of (Distance r), view_of (Calories r))) (rows (df self)) =
        [(VFin (-2001 # 2), VFin (-2000 # 1))] /\
      forallb (fun r => fle zero (Distance r) && fle zero (Calories r)) (rows (df self)) = false
  | Raise _ => False
  end.
Proof. vm_compute. split; reflexivity. Qed.

(** ** Windows over the running records *)

Lemma series_max_greatest (ts : list Z) (m : Z) :
  Series.max ts = Some m -> In m ts /\ forall t : Z, In t ts -> t <= m.
Proof.
  destruct ts as [|t0 rest]; [discriminate |].
  cbn [Series.max]. intros [= <-].
  induction rest as [|t rest IH]; cbn [fold_right].
  - split; [left; reflexivity |]. intros t [<-|[]]. lia.
  - destruct IH as [Hin Hmax]. split.
    + destruct (Z.max_spec t (fold_right Z.max t0 rest)) as [[_ ->]|[_ ->]].
      * destruct Hin as [<-|Hin]; [left; reflexivity | right; right; exact Hin].
      * right; left; reflexivity.
    + intros u [Hu|[Hu|Hu]].
      * specialize (Hmax u (or_introl Hu)). lia.
      * lia.
      * specialize (Hmax u (or_intror Hu)). lia.
Qed.

Lemma series_max_none (ts : list Z) : Series.max ts = None <-> ts = [].
Proof. destruct ts; cbn [Series.max]; split; congruence. Qed.

Lemma on_or_after_In (cutoff : option Z) (rs : list activity) (x : activity) :
  In x (on_or_after cutoff rs) <->
  In x rs /\ exists c : Z, cutoff = Some c /\ c <= Date x.
Proof.
  destruct cutoff as [c|]; cbn [on_or_after].
  - rewrite filter_In. split.
    + intros [Hin Hle]. split; [exact Hin |]. exists c. split; [reflexivity | lia].
    + intros [Hin (c' & [= <-] & Hle)]. split; [exact Hin | lia].
  - split; [intros [] | intros [_ (c & Hc & _)]; discriminate].
Qed.

Lemma trailing_on_or_after (n : Z) (rs : list activity) :
  on_or_after (option_map (fun t => t - timedelta_days n) (Series.max (map Date rs))) rs =
  trailing n rs.
Proof. unfold trailing. destruct (Series.max (map Date rs)); reflexivity. Qed.

Lemma trailing_In (n : Z) (rs : list activity) (x : activity) :
  In x (trailing n rs) <->
  In x rs /\
  exists latest : Z,
    In latest (map Date rs) /\ (forall t : Z, In t (map Date rs) -> t <= latest) /\
    latest - n * day <= Date x.
Proof.
  unfold trailing. destruct (Series.max (map Date rs)) as [m|] eqn:E.
  - destruct (series_max_greatest _ _ E) as [Hin Hmax].
    rewrite filter_In. split.
    + intros [Hx Hle]. split; [exact Hx |]. exists m. repeat split; auto. lia.
    + intros [Hx (latest & Hl & Hg & Hle)]. split; [exact Hx |].
      assert (latest = m) by (specialize (Hmax _ Hl); specialize (Hg _ Hin); lia).
      subst latest. lia.
  - apply series_max_none in E. split; [intros [] |].
    intros [_ (latest & Hl & _)]. rewrite E in Hl. exact Hl.
Qed.

(** C7.  The trailing-4-week statistics are taken over the running
    records dated on or after the latest date minus 28 days: the total
    distance, the total ascent, the number of records, the mean distance
    per run (0 when there is no record), and the weekly averages, which
    are the totals divided by 4 whatever the number of weeks that hold
    data: four runs in one single week, 40 km in all, average 10 km. *)
Theorem trailing_four_weeks :
  (forall (self : analyzer) (week now : Z),
     match fst (get_running_data self), fst (generate_html_report week now self) with
     | Ok running, Ok r =>
         let recent := trailing 28 (rows running) in
         total_distance r = Series.sum (map Distance recent) /\
         total_elevation r = Series.sum (map Total_Ascent recent) /\
         total_runs r = Z.of_nat (length recent) /\
         avg_distance r =
           (if total_runs r =? 0 then zero
            else fdiv (total_distance r) (of_Z (total_runs r))) /\
         avg_weekly_dist r = fdiv (total_distance r) (of_Z 4) /\
         avg_weekly_elev r = fdiv (total_elevation r) (of_Z 4)
     | Ok _, Raise _ => True
     | Raise _, _ => False
     end) /\
  (forall (rs : list activity) (x : activity),
     In x (trailing 28 rs) <->
     In x rs /\
     exists latest : Z,
       In latest (map Date rs) /\ (forall t : Z, In t (map Date rs) -> t <= latest) /\
       latest - 28 * day <= Date x) /\
  match __init__ Sample.no_text Sample.four_runs with
  | Ok self =>
      match fst (generate_html_report 1 Sample.a_clock self) with
      | Ok r =>
          chart_weeks (chart_data r) = [20395] /\
          view_of (total_distance r) = VFin 40 /\
          total_runs r = 4 /\
          view_of (avg_distance r) = VFin 10 /\
          view_of (avg_weekly_dist r) = VFin 10 /\
          view_of (avg_weekly_elev r) = VFin 75
      | Raise _ => False
      end
  | Raise _ => False
  end.
Proof.
  split; [| split].
  - intros self week now. run_method.
    destruct (missing_columns _); cbn [fst]; [| exact I].
    cbn [total_distance total_elevation total_runs avg_distance avg_weekly_dist
         avg_weekly_elev].
    rewrite !trailing_on_or_after.
    repeat split.
    destruct (length (trailing 28 _)); reflexivity.
  - exact (trailing_In 28).
  - vm_compute. repeat split; reflexivity.
Qed.

(** ** Repeated evaluation over the store *)

Lemma lookup_new (st new : Store.store) (k : nat) :
  (st ++ new)%list !! (length st + k)%nat = new !! k.
Proof. rewrite lookup_app_r by lia. f_equal. lia. Qed.

Lemma insert_new (st new : Store.store) (k : nat) (o : Store.object) :
  <[(length st + k)%nat := o]> (st ++ new)%list = (st ++ <[k := o]> new)%list.
Proof. apply insert_app_r. Qed.

Lemma lookup_old (st new : Store.store) (r : Store.ref) (o : Store.object) :
  st !! r = Some o -> (st ++ new)%list !! r = Some o.
Proof. intros H. apply lookup_app_l_Some, H. Qed.

Lemma running_run (st : Store.store) (self : Store.handle) (f : frame activity) :
  st !! Store.df_ref self = Some (Store.Plain f) ->
  Store.get_running_data self st =
  Some (Ok (length st + 1)%nat,
        (st ++ [Store.Plain (running_frame f); Store.Plain (running_frame f)])%list).
Proof.
  intros H.
  cbv beta iota zeta delta
    [Store.get_running_data Store.plain_at Store.alloc mbind Store.Method_bind].
  rewrite H. cbv beta iota.
  replace (length st) with (length st + 0)%nat at 1 by lia.
  rewrite lookup_new. cbn [lookup list_lookup].
  rewrite length_app, <- app_assoc. reflexivity.
Qed.

Lemma weekly_run (st : Store.store) (self : Store.handle) (f : frame activity) (weeks : Z) :
  st !! Store.df_ref self = Some (Store.Plain f) ->
  exists new : Store.store,
    Store._get_weekly_data self weeks st =
    Some (fst (_get_weekly_data weeks (Store.object_of self f)), (st ++ new)%list).
Proof.
  intros H.
  cbv beta iota zeta delta [Store._get_weekly_data mbind Store.Method_bind].
  rewrite (running_run st self f H). cbv beta iota zeta.
  cbv beta iota zeta delta [Store.plain_at Store.alloc Store.put Store.weekly_at].
  rewrite lookup_new. cbn [lookup list_lookup]. cbv beta iota zeta.
  rewrite length_app, <- app_assoc. cbn [length app Nat.add].
  rewrite lookup_new. cbn [lookup list_lookup]. cbv beta iota zeta.
  rewrite length_app, <- app_assoc. cbn [length app Nat.add].
  rewrite lookup_new. cbn [lookup list_lookup]. cbv beta iota zeta.
  rewrite lookup_new. cbn [lookup list_lookup]. cbv beta iota zeta.
  rewrite insert_new. cbn [insert list_insert].
  rewrite lookup_new. cbn [lookup list_lookup]. cbv beta iota zeta.
  run_method. unfold running_frame, Store.object_of. cbn [df columns rows].
  destruct (missing_columns _); eexists; reflexivity.
Qed.

Lemma report_run (st : Store.store) (self : Store.handle) (f : frame activity)
    (week now : Z) :
  st !! Store.df_ref self = Some (Store.Plain f) ->
  exists new : Store.store,
    Store.generate_html_report self week now st =
    Some (fst (generate_html_report week now (Store.object_of self f)), (st ++ new)%list).
Proof.
  intros H.
  cbv beta iota zeta delta
    [Store.generate_html_report Store._get_chart_data mbind Store.Method_bind].
  rewrite (running_run st self f H). cbv beta iota zeta.
  cbv beta iota zeta delta [Store.plain_at].
  rewrite lookup_new. cbn [lookup list_lookup]. cbv beta iota zeta.
  destruct (weekly_run _ self f 8
              (lookup_old st [Store.Plain (running_frame f); Store.Plain (running_frame f)]
                 _ _ H)) as (new & Hnew).
  rewrite Hnew. rewrite <- app_assoc.
  revert Hnew. run_method. unfold running_frame, Store.object_of.
  cbn [df columns rows marathon_date race_date]. intros _.
  destruct (missing_columns _); eexists; reflexivity.
Qed.

(** C9.  For a given frame, marathon date, race date, plan week and
    reading of the clock, the evaluation changes no frame that was there
    before it ran: the frames it makes (its selections and copies) are
    added to the store, and the one it writes to, when it assigns the
    column "Week", is among them.  So the frame of the analyzer is after
    the run what it was before, and a second run, on the store that the
    first leaves, gives the same outcome.  The outcome is the one that the
    method gives as a function of the frame, the dates, the week and the
    clock; the weekly aggregation behaves in the same way. *)
Theorem evaluation_repeatable (st : Store.store) (self : Store.handle)
    (f : frame activity) (week now : Z) :
  st !! Store.df_ref self = Some (Store.Plain f) ->
  exists (result : outcome report) (new new' : Store.store),
    Store.generate_html_report self week now st = Some (result, (st ++ new)%list) /\
    Store.generate_html_report self week now (st ++ new)%list =
      Some (result, ((st ++ new) ++ new')%list) /\
    (forall (r : Store.ref) (o : Store.object),
       st !! r = Some o -> (st ++ new)%list !! r = Some o) /\
    (st ++ new)%list !! Store.df_ref self = Some (Store.Plain f) /\
    result = fst (generate_html_report week now (Store.object_of self f)) /\
    (forall weeks : Z,
       exists written : Store.store,
         Store._get_weekly_data self weeks st =
         Some (fst (_get_weekly_data weeks (Store.object_of self f)),
               (st ++ written)%list)).
Proof.
  intros H.
  destruct (report_run st self f week now H) as (new & Hfirst).
  destruct (report_run (st ++ new)%list self f week now (lookup_old st new _ _ H))
    as (new' & Hsecond).
  exists (fst (generate_html_report week now (Store.object_of self f))), new, new'.
  split; [exact Hfirst |]. split; [exact Hsecond |].
  split; [intros r o; apply lookup_old |].
  split; [apply lookup_old, H |].
  split; [reflexivity |].
  intros weeks. apply weekly_run, H.
Qed.

Lemma evaluation_repeatable_witness :
  exists (result : outcome report) (new new' : Store.store),
    Store.generate_html_report Sample.a_handle 1 Sample.a_clock Sample.a_store =
      Some (result, (Sample.a_store ++ new)%list) /\
    Store.generate_html_report Sample.a_handle 1 Sample.a_clock (Sample.a_store ++ new)%list =
      Some (result, ((Sample.a_store ++ new) ++ new')%list) /\
    (forall (r : Store.ref) (o : Store.object),
       Sample.a_store !! r = Some o -> (Sample.a_store ++ new)%list !! r = Some o) /\
    (Sample.a_store ++ new)%list !! Store.df_ref Sample.a_handle =
      Some (Store.Plain (df Sample.four_runs_object)) /\
    result = fst (generate_html_report 1 Sample.a_clock
                    (Store.object_of Sample.a_handle (df Sample.four_runs_object))) /\
    (forall weeks : Z,
       exists written : Store.store,
         Store._get_weekly_data Sample.a_handle weeks Sample.a_store =
         Some (fst (_get_weekly_data weeks
                      (Store.object_of Sample.a_handle (df Sample.four_runs_object))),
               (Sample.a_store ++ written)%list)).
Proof.
  apply (evaluation_repeatable Sample.a_store Sample.a_handle (df Sample.four_runs_object)
           1 Sample.a_clock).
  reflexivity.
Defined.

(** ** The window of the last ten records *)

Lemma StronglySorted_transfer {A B : Type} (P : A -> B -> Prop)
    (R : relation A) (R' : relation B) (l : list A) (k : list B) :
  (forall x y x' y', P x y -> P x' y' -> R x x' -> R' y y') ->
  Forall2 P l k -> StronglySorted R l -> StronglySorted R' k.
Proof.
  intros Hmono HF. induction HF as [|x y l k Hxy HF IH]; intros Hs.
  - constructor.
  - apply StronglySorted_inv in Hs as [Hs Hall]. constructor; [exact (IH Hs) |].
    apply Forall_forall. intros y' Hy'.
    destruct (Forall2_elem_of_r _ _ _ _ HF Hy') as (x' & Hx' & HP).
    rewrite Forall_forall in Hall. eauto.
Qed.

Lemma StronglySorted_filter_bool {A : Type} (R : relation A) (f : A -> bool) (l : list A) :
  StronglySorted R l -> StronglySorted R (List.filter f l).
Proof.
  induction 1 as [|x l Hs IH Hall]; cbn [List.filter]; [constructor |].
  destruct (f x); [| exact IH]. constructor; [exact IH |].
  rewrite Forall_forall in *. intros y Hy.
  apply list_elem_of_In, filter_In in Hy as [Hy _]. apply Hall, list_elem_of_In, Hy.
Qed.

Lemma init_sorted (to_num : string -> pyfloat) (csv : frame raw_activity) (self : analyzer) :
  __init__ to_num csv = Ok self -> StronglySorted by_date (rows (df self)).
Proof.
  rewrite init_rowwise.
  destruct (mapM _ _) as [rs|] eqn:E; [| discriminate].
  intros [= <-]. cbn [df rows]. apply mapM_Some_1 in E.
  eapply StronglySorted_transfer; [| exact E | apply sort_by_date_sorted].
  intros x y x' y' Hx Hx' Hle.
  destruct (clean_one_holds _ _ _ Hx) as (_ & _ & Hd).
  destruct (clean_one_holds _ _ _ Hx') as (_ & _ & Hd').
  unfold by_date, date_le in *. lia.
Qed.

Lemma tail_length {A : Type} (n : nat) (l : list A) :
  length (Series.tail n l) = Nat.min n (length l).
Proof. unfold Series.tail. rewrite length_drop. lia. Qed.

Lemma tail_all {A : Type} (n : nat) (l : list A) :
  (length l <= n)%nat -> Series.tail n l = l.
Proof.
  intros H. unfold Series.tail.
  replace (length l - n)%nat with 0%nat by lia. reflexivity.
Qed.

Lemma tail_suffix {A : Type} (n : nat) (l : list A) :
  l = (take (length l - n) l ++ Series.tail n l)%list.
Proof. unfold Series.tail. symmetry. apply take_drop. Qed.

(** C10.  The heart-rate and load window is the last ten running records:
    it has min(10, n) of the n records, it is all of them when there are
    fewer than ten, and, the frame being sorted by date at construction,
    no record outside it is dated later than one inside it.  The means of
    a report are the means over this window; over an empty window they are
    not-a-number and nothing is raised. *)
Theorem last_ten_window :
  (forall (to_num : string -> pyfloat) (csv : frame raw_activity),
     match __init__ to_num csv with
     | Ok self =>
         match fst (get_running_data self) with
         | Ok running =>
             let window := Series.tail 10 (rows running) in
             length window = Nat.min 10 (length (rows running)) /\
             ((length (rows running) < 10)%nat -> window = rows running) /\
             exists older : list activity,
               rows running = (older ++ window)%list /\
               forall x y : activity, In x older -> In y window -> Date x <= Date y
         | Raise _ => False
         end
     | Raise _ => True
     end) /\
  (forall (self : analyzer) (week now : Z),
     match fst (get_running_data self), fst (generate_html_report week now self) with
     | Ok running, Ok r =>
         let window := Series.tail 10 (rows running) in
         avg_hr (hr r) = Series.mean (map Avg_HR window) /\
         max_hr (hr r) =
           (if has_column "Max HR" running then Series.mean (map Max_HR window) else zero) /\
         avg_te (hr r) = Series.mean (map Aerobic_TE window) /\
         (rows running = [] -> avg_hr (hr r) = NaN /\ avg_te (hr r) = NaN)
     | Ok _, Raise _ => True
     | Raise _, _ => False
     end) /\
  Series.mean [] = NaN /\
  match __init__ Sample.no_text Sample.no_rows with
  | Ok self =>
      match fst (generate_html_report 1 Sample.a_clock self) with
      | Ok r =>
          view_of (avg_hr (hr r)) = VNaN /\
          view_of (max_hr (hr r)) = VNaN /\
          view_of (avg_te (hr r)) = VNaN
      | Raise _ => False
      end
  | Raise _ => False
  end.
Proof.
  split; [| split; [| split]].
  - intros to_num csv. destruct (__init__ to_num csv) as [self|] eqn:E; [| exact I].
    apply init_sorted in E. run_method. cbn [fst rows].
    set (running := List.filter _ (rows (df self))).
    assert (Hs : StronglySorted by_date running)
      by (apply StronglySorted_filter_bool, E).
    split; [apply tail_length |].
    split; [intros H; apply tail_all; lia |].
    exists (take (length running - 10) running).
    split; [apply tail_suffix |].
    intros x y Hx Hy. rewrite (tail_suffix 10 running) in Hs.
    apply (StronglySorted_app_1_elem_of _ _ _ x y Hs); apply list_elem_of_In; assumption.
  - intros self week now. run_method.
    destruct (missing_columns _) eqn:E; cbn [fst]; [| exact I].
    rewrite missing_columns_running in E.
    apply missing_columns_none in E as [Hhr Hte].
    cbn [hr]. unfold hr_analysis, has_column. cbn [columns].
    rewrite Hhr, Hte. cbn [avg_hr max_hr avg_te rows].
    do 3 (split; [reflexivity |]). intros ->. split; reflexivity.
  - reflexivity.
  - vm_compute. repeat split; reflexivity.
Qed.

(** ** The order of the rows *)

Lemma filter_bool_Permutation {A : Type} (f : A -> bool) (l l' : list A) :
  l ≡ₚ l' -> List.filter f l ≡ₚ List.filter f l'.
Proof.
  induction 1 as [|x l l' _ IH|x y l|l l' l'' _ IH1 _ IH2]; cbn [List.filter].
  - reflexivity.
  - destruct (f x); [constructor |]; exact IH.
  - destruct (f x), (f y); try reflexivity. apply perm_swap.
  - etransitivity; eassumption.
Qed.

Lemma max_Permutation (ts ts' : list Z) :
  ts ≡ₚ ts' -> Series.max ts = Series.max ts'.
Proof.
  intros H.
  destruct (Series.max ts) as [m|] eqn:E, (Series.max ts') as [m'|] eqn:E'.
  - destruct (series_max_greatest _ _ E) as [Hin Hmax].
    destruct (series_max_greatest _ _ E') as [Hin' Hmax'].
    f_equal. apply Z.le_antisymm.
    + apply Hmax'. apply list_elem_of_In. rewrite <- H. apply list_elem_of_In, Hin.
    + apply Hmax. apply list_elem_of_In. rewrite H. apply list_elem_of_In, Hin'.
  - apply series_max_none in E'. subst ts'. apply Permutation_nil_r in H. subst ts.
    discriminate E.
  - apply series_max_none in E. subst ts. apply Permutation_nil in H. subst ts'.
    discriminate E'.
  - reflexivity.
Qed.

(** ** Weekly buckets *)

Lemma group_keys_Permutation (rs rs' : list (Z * activity)) :
  rs ≡ₚ rs' -> group_keys rs = group_keys rs'.
Proof.
  intros H. unfold group_keys.
  apply (Sorted_unique Z.le); try apply Sorted_merge_sort; try apply _.
  rewrite !merge_sort_Permutation.
  apply NoDup_Permutation; try apply NoDup_remove_dups.
  intros w. rewrite !elem_of_remove_dups.
  assert (Hmap : map fst rs ≡ₚ map fst rs') by (apply Permutation_map, H).
  rewrite Hmap. reflexivity.
Qed.

Lemma week_of_aggregate (rs : list (Z * activity)) (ws : list Z) :
  map Week (map (aggregate rs) ws) = ws.
Proof. induction ws as [|w ws IH]; cbn [map]; [| rewrite IH]; reflexivity. Qed.

Lemma sorted_nodup_strict (l : list Z) :
  Sorted Z.le l -> NoDup l -> StronglySorted Z.lt l.
Proof.
  intros Hs Hn. apply Sorted_StronglySorted in Hs; [| intros x y z; lia].
  induction Hs as [|x l Hs IH Hall]; [constructor |].
  apply NoDup_cons in Hn as [Hx Hn]. constructor; [exact (IH Hn) |].
  rewrite Forall_forall in *. intros y Hy.
  specialize (Hall y Hy). assert (x <> y) by (intros ->; exact (Hx Hy)). lia.
Qed.

Lemma group_keys_ascending (rs : list (Z * activity)) :
  StronglySorted Z.lt (group_keys rs).
Proof.
  unfold group_keys. apply sorted_nodup_strict.
  - apply Sorted_merge_sort. apply _.
  - rewrite merge_sort_Permutation. apply NoDup_remove_dups.
Qed.

Lemma group_keys_weeks (rs : list activity) (w : Z) :
  w ∈ group_keys (by_week rs) <->
  exists r : activity, r ∈ rs /\ week_of (Date r) = w.
Proof.
  unfold group_keys, by_week. rewrite merge_sort_Permutation, elem_of_remove_dups.
  rewrite !list_elem_of_fmap. split.
  - intros (p & -> & Hp). apply list_elem_of_fmap in Hp as (r & -> & Hr).
    exists r. auto.
  - intros (r & Hr & <-). exists (week_of (Date r), r). split; [reflexivity |].
    apply list_elem_of_fmap. exists r. auto.
Qed.

(** * Further properties of the evaluation *)

(** ** Integers and the order on floats *)

Lemma of_Z_lt (a b : Z) : lt_float (of_Z a) (of_Z b) <-> a < b.
Proof.
  unfold of_Z, lt_float, Qclt. rewrite !Q2Qc_this, <- Zlt_Qlt. reflexivity.
Qed.

Lemma fdiv_of_Z (d k : Z) :
  0 < k -> fdiv (of_Z d) (of_Z k) = Fin (Q2Qc (inject_Z d) / Q2Qc (inject_Z k))%Qc.
Proof.
  intros Hk. unfold of_Z, fdiv. rewrite (sgn_of_Z_pos k Hk). reflexivity.
Qed.

Lemma of_Z_nonzero (k : Z) : 0 < k -> Q2Qc (inject_Z k) <> Q2Qc 0.
Proof.
  intros Hk E. pose proof (of_Z_positive k Hk) as H. rewrite E in H.
  exact (Qclt_not_eq _ _ H eq_refl).
Qed.

(** A quotient of integers is below an integer exactly when the dividend
    is below the product. *)
Lemma quotient_lt (d k c : Z) :
  0 < k -> lt_float (fdiv (of_Z d) (of_Z k)) (of_Z c) <-> d < c * k.
Proof.
  intros Hk. rewrite fdiv_of_Z by exact Hk.
  rewrite <- of_Z_lt, <- of_Z_mul. unfold of_Z. cbn [lt_float fmul].
  rewrite (Qcmult_lt_mono_pos_r _ _ _ (of_Z_positive k Hk)).
  replace (Q2Qc (inject_Z d) / Q2Qc (inject_Z k) * Q2Qc (inject_Z k))%Qc
    with (Q2Qc (inject_Z d)) by (field; apply of_Z_nonzero, Hk).
  reflexivity.
Qed.

Lemma day_positive : 0 < day.
Proof. reflexivity. Qed.

Lemma days_lt (delta n : Z) : days delta < n <-> delta < timedelta_days n.
Proof.
  unfold days, timedelta_days. pose proof day_positive as Hd.
  generalize dependent day. intros D HD. split; intros H.
  - apply Z.nle_gt. intros Hge.
    assert (n <= delta / D) by (apply Z.div_le_lower_bound; lia). lia.
  - apply Z.div_lt_upper_bound; lia.
Qed.

Lemma days_le (delta n : Z) : n <= days delta <-> timedelta_days n <= delta.
Proof. pose proof (days_lt delta n). lia. Qed.

(** ** Recovery status and dates *)

Lemma recovery_of_days (d : Z) :
  let status := fst (recovery (fdiv (of_Z d) (of_Z 7))) in
  (status = "EARLY RECOVERY" <-> d < 14) /\
  (status = "RECOVERY PHASE" <-> 14 <= d < 28) /\
  (status = "RECOVERED" <-> 28 <= d).
Proof.
  intros status. subst status. unfold recovery.
  pose proof (quotient_lt d 7 2 eq_refl) as H2.
  pose proof (quotient_lt d 7 4 eq_refl) as H4.
  rewrite <- flt_spec in H2, H4.
  destruct (flt (fdiv (of_Z d) (of_Z 7)) (of_Z 2)) eqn:E2;
    [| destruct (flt (fdiv (of_Z d) (of_Z 7)) (of_Z 4)) eqn:E4]; cbn [fst].
  - assert (d < 14) by (apply H2; reflexivity).
    repeat split; intros; try discriminate; try lia.
  - assert (~ d < 14) by (intros Hd; apply H2 in Hd; discriminate).
    assert (d < 28) by (apply H4; reflexivity).
    repeat split; intros; try discriminate; try lia.
  - assert (~ d < 14) by (intros Hd; apply H2 in Hd; discriminate).
    assert (~ d < 28) by (intros Hd; apply H4 in Hd; discriminate).
    repeat split; intros; try discriminate; try lia.
Qed.

(** X1.  The recovery status of a report is decided by the date of the
    latest running record: "EARLY RECOVERY" when it is less than 14 days
    after the marathon date (or before it), "RECOVERY PHASE" from 14 days
    on and less than 28, "RECOVERED" from 28 days on.  Without any running
    record the weeks since the marathon are not-a-number and the status is
    "RECOVERED". *)
Theorem recovery_by_latest_run (self : analyzer) (week now : Z) :
  match fst (get_running_data self), fst (generate_html_report week now self) with
  | Ok running, Ok r =>
      match Series.max (map Date (rows running)) with
      | Some latest =>
          let since := latest - marathon_date self in
          (recovery_status r = "EARLY RECOVERY" <-> since < timedelta_days 14) /\
          (recovery_status r = "RECOVERY PHASE" <->
             timedelta_days 14 <= since < timedelta_days 28) /\
          (recovery_status r = "RECOVERED" <-> timedelta_days 28 <= since)
      | None =>
          view_of (weeks_since r) = VNaN /\
          recovery_status r = "RECOVERED" /\ recovery_class r = "success"
      end
  | Ok _, Raise _ => True
  | Raise _, _ => False
  end.
Proof.
  run_method. destruct (missing_columns _); cbn [fst]; [| exact I].
  cbn [recovery_status recovery_class weeks_since].
  destruct (Series.max _) as [latest|].
  - destruct (recovery_of_days (days (latest - marathon_date self))) as (H1 & H2 & H3).
    rewrite H1, H2, H3.
    pose proof (days_lt (latest - marathon_date self) 14).
    pose proof (days_lt (latest - marathon_date self) 28).
    repeat split; lia.
  - repeat split.
Qed.

(** ** The windows of the report *)

Lemma filter_length_mono {A : Type} (f g : A -> bool) (l : list A) :
  (forall x : A, In x l -> f x = true -> g x = true) ->
  (length (List.filter f l) <= length (List.filter g l))%nat.
Proof.
  induction l as [|x l IH]; intros H; cbn [List.filter]; [lia |].
  assert (IH' : (length (List.filter f l) <= length (List.filter g l))%nat)
    by (apply IH; intros y Hy; apply H; right; exact Hy).
  destruct (f x) eqn:Ef.
  - rewrite (H x (or_introl eq_refl) Ef). cbn [length]. lia.
  - destruct (g x); cbn [length]; lia.
Qed.

Lemma filter_length_bound {A : Type} (f : A -> bool) (l : list A) :
  (length (List.filter f l) <= length l)%nat.
Proof.
  induction l as [|x l IH]; cbn [List.filter]; [lia |].
  destruct (f x); cbn [length]; lia.
Qed.

Lemma filter_length_positive {A : Type} (f : A -> bool) (l : list A) (x : A) :
  In x l -> f x = true -> (1 <= length (List.filter f l))%nat.
Proof.
  intros Hin Hf. assert (Hx : In x (List.filter f l)) by (apply filter_In; auto).
  destruct (List.filter f l); [destruct Hx | cbn [length]; lia].
Qed.

(** X2.  The windows of a report nest: the records of the last 7 days are
    among those of the last 4 weeks, which are among the running records,
    so the run counts are ordered accordingly; the records after the
    marathon are running records too.  When the running records have a
    latest date, the record that carries it is in both windows and both
    counts are at least 1; when they have none, both are 0. *)
Theorem windows_nest (self : analyzer) (week now : Z) :
  match fst (get_running_data self), fst (generate_html_report week now self) with
  | Ok running, Ok r =>
      let n := Z.of_nat (length (rows running)) in
      0 <= week_runs r <= total_runs r /\
      total_runs r <= n /\
      0 <= post_marathon_runs r <= n /\
      match Series.max (map Date (rows running)) with
      | Some latest => 1 <= week_runs r
      | None => week_runs r = 0 /\ total_runs r = 0
      end
  | Ok _, Raise _ => True
  | Raise _, _ => False
  end.
Proof.
  run_method. destruct (missing_columns _); cbn [fst]; [| exact I].
  cbn [week_runs total_runs post_marathon_runs rows].
  set (running := List.filter _ (rows (df self))).
  pose proof (filter_length_bound (fun r => marathon_date self <? Date r) running) as Hpost.
  destruct (Series.max (map Date running)) as [latest|] eqn:E; cbn [option_map on_or_after].
  - destruct (series_max_greatest _ _ E) as [Hin Hmax].
    apply in_map_iff in Hin as (x & Hx & Hxin).
    pose proof (filter_length_mono
                  (fun r => (latest - timedelta_days 7 <=? Date r) && (Date r <=? latest))
                  (fun r => latest - timedelta_days 28 <=? Date r) running) as Hnest.
    pose proof (filter_length_bound (fun r => latest - timedelta_days 28 <=? Date r) running)
      as Hfour.
    pose proof (filter_length_positive
                  (fun r => (latest - timedelta_days 7 <=? Date r) && (Date r <=? latest))
                  running x Hxin) as Hone.
    assert (Hd : 0 < timedelta_days 7 < timedelta_days 28) by (split; reflexivity).
    cbv beta in Hnest, Hone.
    assert (Hn : forall y : activity,
               In y running ->
               (latest - timedelta_days 7 <=? Date y) && (Date y <=? latest) = true ->
               (latest - timedelta_days 28 <=? Date y) = true).
    { intros y _ Hy. apply andb_true_iff in Hy as [Hy _].
      apply Z.leb_le in Hy. apply Z.leb_le. lia. }
    specialize (Hnest Hn).
    assert (Hl : (latest - timedelta_days 7 <=? Date x) && (Date x <=? latest) = true)
      by (apply andb_true_iff; split; apply Z.leb_le; lia).
    specialize (Hone Hl).
    repeat split; lia.
  - cbn [length]. repeat split; lia.
Qed.

(** ** Race countdown *)

Lemma days_shift (delta : Z) : days (delta - day) = days delta - 1.
Proof.
  unfold days. replace (delta - day) with (delta + (-1) * day) by lia.
  rewrite Z.div_add by (pose proof day_positive; lia). lia.
Qed.

(** X4.  The countdown of a report counts whole days, rounded down: it is
    [n] exactly from [n + 1] days before the race date, excluded, to [n]
    days before it, included.  So it is not negative exactly until the
    race date, it is -1 during the day that follows, and a clock one day
    later gives one day less.  The weeks are the days divided by 7. *)
Theorem race_countdown (self : analyzer) (week now : Z) :
  match fst (generate_html_report week now self),
        fst (generate_html_report week (now + day) self) with
  | Ok r, Ok r' =>
      (forall n : Z,
         days_to_race r = n <->
         race_date self - timedelta_days (n + 1) < now <= race_date self - timedelta_days n) /\
      (0 <= days_to_race r <-> now <= race_date self) /\
      weeks_to_race r = fdiv (of_Z (days_to_race r)) (of_Z 7) /\
      days_to_race r' = days_to_race r - 1
  | Raise e, Raise e' => e = e'
  | _, _ => False
  end.
Proof.
  run_method. destruct (missing_columns _); cbn [fst]; [| reflexivity].
  cbn [days_to_race weeks_to_race].
  split; [| split; [| split]].
  - intros n.
    pose proof (days_lt (race_date self - now) (n + 1)).
    pose proof (days_le (race_date self - now) n). lia.
  - pose proof (days_le (race_date self - now) 0).
    change (timedelta_days 0) with 0 in *. lia.
  - reflexivity.
  - replace (race_date self - (now + day)) with (race_date self - now - day) by lia.
    apply days_shift.
Qed.

(** ** Phases and targets *)

Lemma phase_by_week (w : Z) :
  let p := fst (phase_info w) in
  (p = "BASE BUILDING" <-> w <= 4) /\
  (p = "HILL STRENGTH" <-> 5 <= w <= 8) /\
  (p = "SPECIFIC ENDURANCE" <-> 9 <= w <= 14) /\
  (p = "RACE SIMULATION" <-> 15 <= w <= 18) /\
  (p = "TAPER" <-> 19 <= w).
Proof.
  intros p. subst p. unfold phase_info.
  destruct (Z.leb_spec w 4); [| destruct (Z.leb_spec w 8);
    [| destruct (Z.leb_spec w 14); [| destruct (Z.leb_spec w 18)]]];
    cbn [fst]; repeat split; intros; try discriminate; try lia.
Qed.

(** X5.  The phase of a report follows the plan week alone: "BASE
    BUILDING" up to week 4 (week 0 and negative weeks included), "HILL
    STRENGTH" for 5 to 8, "SPECIFIC ENDURANCE" for 9 to 14, "RACE
    SIMULATION" for 15 to 18 and "TAPER" from 19 on.  The table of targets
    ends at week 14: in the last two phases, and before week 1, the week
    is compared with the default target of 40 km, 300 m and 4 runs. *)
Theorem phase_and_target (self : analyzer) (week now : Z) :
  match fst (generate_html_report week now self) with
  | Ok r =>
      (phase r = "BASE BUILDING" <-> week <= 4) /\
      (phase r = "HILL STRENGTH" <-> 5 <= week <= 8) /\
      (phase r = "SPECIFIC ENDURANCE" <-> 9 <= week <= 14) /\
      (phase r = "RACE SIMULATION" <-> 15 <= week <= 18) /\
      (phase r = "TAPER" <-> 19 <= week) /\
      (phase r = "RACE SIMULATION" \/ phase r = "TAPER" \/ week <= 0 ->
       plan r = {| distance := 40; elevation := 300; runs := 4 |})
  | Raise _ => True
  end.
Proof.
  run_method. destruct (missing_columns _); cbn [fst]; [| exact I].
  cbn [phase plan].
  destruct (phase_by_week week) as (H1 & H2 & H3 & H4 & H5).
  do 5 (split; [assumption |]).
  intros H. unfold plan_target. rewrite plan_targets_outside; [reflexivity |].
  rewrite H4, H5 in H. lia.
Qed.

(** X6.  The targets that the recommendations print for the following
    week are those that the comparison of the following week would use:
    the entry of the table when there is one, and 40 km and 300 m
    otherwise, as from week 14 on. *)
Theorem next_week_targets (week : Z) :
  next_week_distance week = distance (plan_target (week + 1)) /\
  next_week_elevation week = elevation (plan_target (week + 1)) /\
  0 < next_week_distance week /\
  0 < next_week_elevation week /\
  (14 <= week \/ week < 0 ->
   next_week_distance week = 40 /\ next_week_elevation week = 300).
Proof.
  assert (Hd : next_week_distance week = distance (plan_target (week + 1)))
    by (unfold next_week_distance, plan_target;
        destruct (plan_targets !! (week + 1)); reflexivity).
  assert (He : next_week_elevation week = elevation (plan_target (week + 1)))
    by (unfold next_week_elevation, plan_target;
        destruct (plan_targets !! (week + 1)); reflexivity).
  destruct (plan_target_positive (week + 1)) as (Hpd & Hpe & _).
  repeat split; try congruence; try lia.
  - destruct H; unfold next_week_distance; rewrite plan_targets_outside; lia.
  - destruct H; unfold next_week_elevation; rewrite plan_targets_outside; lia.
Qed.

(** ** The weekly buckets partition the window *)

Lemma total_add {A : Type} (f g : A -> Z) (l : list A) :
  total (map (fun x => f x + g x) l) = total (map f l) + total (map g l).
Proof. unfold total. induction l as [|x l IH]; cbn [map fold_right] in *; lia. Qed.

Lemma total_indicator (w : Z) (keys : list Z) :
  NoDup keys ->
  total (map (fun k => if w =? k then 1 else 0) keys) = (if decide (w ∈ keys) then 1 else 0).
Proof.
  unfold total. induction 1 as [|k keys Hk Hnd IH]; [reflexivity |].
  cbn [map fold_right] in *. rewrite IH.
  destruct (decide (w ∈ keys)) as [Hin|Hout], (decide (w ∈ k :: keys)) as [Hin'|Hout'],
           (Z.eqb_spec w k) as [Heq|Hne];
    rewrite ?elem_of_cons in *; subst;
    solve [lia | exfalso; tauto].
Qed.

Lemma counts_partition (ps : list (Z * activity)) (keys : list Z) :
  NoDup keys ->
  (forall p : Z * activity, p ∈ ps -> fst p ∈ keys) ->
  total (map (fun w => Z.of_nat (length (List.filter (fun p => fst p =? w) ps))) keys) =
  Z.of_nat (length ps).
Proof.
  intros Hnd. induction ps as [|p ps IH]; intros Hin.
  - cbn [List.filter length]. clear Hnd Hin. unfold total.
    induction keys as [|k keys IHk]; [reflexivity |].
    cbn [map fold_right] in *. rewrite IHk. reflexivity.
  - rewrite (map_ext _ (fun w => (if fst p =? w then 1 else 0) +
                                 Z.of_nat (length (List.filter (fun q => fst q =? w) ps)))).
    + rewrite total_add, (total_indicator _ _ Hnd), IH.
      * rewrite decide_True by (apply Hin, elem_of_cons; auto). cbn [length]. lia.
      * intros q Hq. apply Hin, elem_of_cons. auto.
    + intros w. cbn [List.filter]. destruct (fst p =? w); cbn [length]; lia.
Qed.

Lemma group_keys_NoDup (ps : list (Z * activity)) : NoDup (group_keys ps).
Proof. unfold group_keys. rewrite merge_sort_Permutation. apply NoDup_remove_dups. Qed.

Lemma group_keys_elem (ps : list (Z * activity)) (w : Z) :
  w ∈ group_keys ps <-> exists p : Z * activity, p ∈ ps /\ fst p = w.
Proof.
  unfold group_keys. rewrite merge_sort_Permutation, elem_of_remove_dups.
  rewrite list_elem_of_fmap. split; intros (p & H1 & H2); exists p; auto.
Qed.

(** X7.  The weekly buckets partition the window of [_get_weekly_data]:
    every bucket counts at least one record, and the counts of the buckets
    add up to the number of running records dated within the given number
    of weeks before the latest one. *)
Theorem weekly_counts_partition (self : analyzer) (weeks : Z) :
  match fst (get_running_data self), fst (_get_weekly_data weeks self) with
  | Ok running, Ok buckets =>
      Forall (fun b => 1 <= count_Activity_Type b) buckets /\
      total (map count_Activity_Type buckets) =
        Z.of_nat (length (trailing (weeks * 7) (rows running)))
  | Ok _, Raise _ => True
  | Raise _, _ => False
  end.
Proof.
  run_method. destruct (missing_columns _); cbn [fst]; [| exact I].
  rewrite trailing_on_or_after.
  set (window := trailing (weeks * 7) _). fold (by_week window).
  split.
  - apply Forall_forall. intros b Hb.
    apply list_elem_of_fmap in Hb as (w & -> & Hw).
    apply group_keys_elem in Hw as (p & Hp & Hw).
    unfold aggregate. cbn [count_Activity_Type]. rewrite length_map.
    pose proof (filter_length_positive (fun q : Z * activity => fst q =? w)
                  (by_week window) p) as H.
    cbv beta in H. rewrite <- list_elem_of_In, Z.eqb_eq in H.
    specialize (H Hp Hw). lia.
  - rewrite map_map.
    rewrite (map_ext _ (fun w => Z.of_nat (length (List.filter (fun p => fst p =? w)
                                                      (by_week window))))).
    + rewrite counts_partition.
      * unfold by_week. rewrite length_map. reflexivity.
      * apply group_keys_NoDup.
      * intros p Hp. apply group_keys_elem. exists p. auto.
    + intros w. unfold aggregate. cbn [count_Activity_Type]. rewrite length_map. reflexivity.
Qed.

(** ** The weeks of the charts *)

Lemma week_of_quotient (t : Z) : week_of t = 7 * ((days t + 3) / 7) - 3.
Proof. unfold week_of. cbv zeta. pose proof (Z.div_mod (days t + 3) 7). lia. Qed.

Lemma days_monotone (t t' : Z) : t <= t' -> days t <= days t'.
Proof. intros H. unfold days. apply Z.div_le_mono; [exact day_positive | exact H]. Qed.

Lemma week_of_monotone (t t' : Z) : t <= t' -> week_of t <= week_of t'.
Proof.
  intros H. rewrite !week_of_quotient.
  pose proof (days_monotone t t' H).
  assert ((days t + 3) / 7 <= (days t' + 3) / 7) by (apply Z.div_le_mono; lia). lia.
Qed.

Lemma week_of_shift (t k : Z) : week_of (t - timedelta_days (k * 7)) = week_of t - 7 * k.
Proof.
  rewrite !week_of_quotient. unfold days, timedelta_days.
  replace (t - k * 7 * day) with (t + (- (k * 7)) * day) by lia.
  rewrite Z.div_add by (pose proof day_positive; lia).
  replace (t / day + - (k * 7) + 3) with (t / day + 3 + (- k) * 7) by lia.
  rewrite Z.div_add by lia. lia.
Qed.

(** Strictly ascending Mondays between two bounds: at most one in every
    seven days. *)
Lemma ascending_weeks_bound (l : list Z) (hi : Z) :
  StronglySorted Z.lt l ->
  forall lo : Z,
    Forall (fun k => lo <= k <= hi /\ exists q : Z, k = 7 * q - 3) l ->
    l = [] \/ 7 * Z.of_nat (length l) <= hi - lo + 7.
Proof.
  induction 1 as [|x l Hs IH Hall]; intros lo Hb; [left; reflexivity | right].
  apply Forall_cons in Hb as [(Hx & qx & Hqx) Hb].
  destruct (IH (x + 7)) as [->|Hlen].
  - rewrite Forall_forall in *. intros k Hk.
    destruct (Hb k Hk) as (Hk1 & qk & Hqk). specialize (Hall k Hk).
    split; [lia | exists qk; exact Hqk].
  - cbn [length]. lia.
  - cbn [length]. lia.
Qed.

Lemma last_of_ascending (l : list Z) (m : Z) :
  StronglySorted Z.lt l -> m ∈ l -> (forall k : Z, k ∈ l -> k <= m) -> last l = Some m.
Proof.
  induction 1 as [|x l Hs IH Hall]; intros Hm Hmax; [inversion Hm |].
  destruct l as [|y l].
  - apply list_elem_of_singleton in Hm as ->. reflexivity.
  - change (last (x :: y :: l)) with (last (y :: l)). apply IH.
    + apply elem_of_cons in Hm as [->|Hm]; [| exact Hm].
      rewrite Forall_forall in Hall.
      specialize (Hall y (list_elem_of_here _ _)).
      specialize (Hmax y (list_elem_of_further _ _ _ (list_elem_of_here _ _))). lia.
    + intros k Hk. apply Hmax, list_elem_of_further, Hk.
Qed.

Lemma window_weeks (running : list activity) (weeks latest : Z) :
  0 <= weeks ->
  Series.max (map Date running) = Some latest ->
  let keys := group_keys (by_week (trailing (weeks * 7) running)) in
  Z.of_nat (length keys) <= weeks + 1 /\ last keys = Some (week_of latest).
Proof.
  intros Hweeks E keys.
  destruct (series_max_greatest _ _ E) as [Hin Hmax].
  assert (Hkeys : forall k : Z,
            k ∈ keys ->
            exists r : activity,
              In r running /\ latest - timedelta_days (weeks * 7) <= Date r <= latest /\
              week_of (Date r) = k).
  { intros k Hk. apply group_keys_weeks in Hk as (r & Hr & Hk).
    apply list_elem_of_In in Hr. unfold trailing in Hr. rewrite E in Hr.
    apply filter_In in Hr as [Hr Hle]. apply Z.leb_le in Hle.
    exists r. split; [exact Hr |]. split; [| exact Hk].
    split; [exact Hle | apply Hmax, in_map, Hr]. }
  assert (Hrange : forall k : Z, k ∈ keys -> week_of latest - 7 * weeks <= k <= week_of latest).
  { intros k Hk. destruct (Hkeys k Hk) as (r & _ & [Hlo Hhi] & <-).
    rewrite <- week_of_shift. split; apply week_of_monotone; assumption. }
  split.
  - destruct (ascending_weeks_bound keys (week_of latest) (group_keys_ascending _)
                (week_of latest - 7 * weeks)) as [Hnil|Hlen].
    + apply Forall_forall. intros k Hk. split; [apply Hrange, Hk |].
      destruct (Hkeys k Hk) as (r & _ & _ & <-).
      exists ((days (Date r) + 3) / 7). apply week_of_quotient.
    + rewrite Hnil. cbn [length]. lia.
    + lia.
  - apply last_of_ascending; [apply group_keys_ascending | | intros k Hk; apply Hrange, Hk].
    apply in_map_iff in Hin as (x & Hx & Hxin).
    apply group_keys_weeks. exists x. split; [| rewrite Hx; reflexivity].
    apply list_elem_of_In. unfold trailing. rewrite E. apply filter_In.
    split; [exact Hxin |]. apply Z.leb_le.
    assert (0 <= weeks * 7 * day) by (pose proof day_positive; nia). lia.
Qed.

(** X8.  The charts of a report have one point for each week, the same
    weeks for the distance and for the elevation, in strictly ascending
    order, and at most 9 of them: the 8 weeks before the latest running
    record touch at most 9 calendar weeks.  The last point is the week of
    the latest running record; without any record the charts are empty. *)
Theorem chart_weeks_bounded (self : analyzer) (week now : Z) :
  match fst (get_running_data self), fst (generate_html_report week now self) with
  | Ok running, Ok r =>
      let c := chart_data r in
      length (chart_distances c) = length (chart_weeks c) /\
      length (chart_elevations c) = length (chart_weeks c) /\
      StronglySorted Z.lt (chart_weeks c) /\
      (length (chart_weeks c) <= 9)%nat /\
      last (chart_weeks c) = option_map week_of (Series.max (map Date (rows running)))
  | Ok _, Raise _ => True
  | Raise _, _ => False
  end.
Proof.
  run_method. destruct (missing_columns _); cbn [fst]; [| exact I].
  cbn [chart_data chart_weeks chart_distances chart_elevations rows].
  rewrite trailing_on_or_after, week_of_aggregate, !length_map.
  set (running := List.filter _ (rows (df self))).
  fold (by_week (trailing (8 * 7) running)).
  do 2 (split; [reflexivity |]).
  split; [apply group_keys_ascending |].
  destruct (Series.max (map Date running)) as [latest|] eqn:E.
  - destruct (window_weeks running 8 latest ltac:(lia) E) as [Hlen Hlast].
    split; [lia | exact Hlast].
  - unfold trailing. rewrite E. split; [cbn; lia | reflexivity].
Qed.

(** ** What construction keeps *)

Lemma Forall2_map_eq {A B C : Type} (g : A -> C) (h : B -> C) (l : list A) (k : list B) :
  Forall2 (fun x y => g x = h y) l k -> map g l = map h k.
Proof. induction 1 as [|x y l k Hxy _ IH]; cbn [map]; [| rewrite Hxy, IH]; reflexivity. Qed.

Lemma clean_one_keeps (to_num : string -> pyfloat) (raw : raw_activity) (r : activity) :
  clean_one to_num raw = Some r ->
  kept_of_raw raw = kept r /\
  Time_Minutes r = time_to_minutes (raw_Time raw) /\
  is_nan (Total_Ascent r) = false /\ is_nan (Total_Descent r) = false.
Proof.
  unfold clean_one.
  destruct (clean_number (raw_Distance raw)) as [d|]; [| discriminate].
  destruct (clean_number (raw_Calories raw)) as [c|]; [| discriminate].
  intros [= <-]. unfold kept, kept_of_raw, clean_row.
  cbn [Date Activity_Type Avg_HR Max_HR Aerobic_TE Time_Minutes Total_Ascent Total_Descent].
  repeat split.
  - destruct (to_numeric_coerce to_num (raw_Total_Ascent raw)); reflexivity.
  - destruct (to_numeric_coerce to_num (raw_Total_Descent raw)); reflexivity.
Qed.

(** X9.  Construction, when it succeeds, gives a frame with the columns of
    the export and the new column "Time_Minutes", whose rows are in
    ascending order of date.  The rows are those of the export: their
    dates, activity types and heart-rate and training-effect cells are
    kept, row for row, up to the reordering.  No ascent or descent is
    not-a-number: a blank elevation cell has become 0. *)
Theorem construction_keeps (to_num : string -> pyfloat) (csv : frame raw_activity) :
  match __init__ to_num csv with
  | Ok self =>
      columns (df self) = (columns csv ++ ["Time_Minutes"])%list /\
      StronglySorted by_date (rows (df self)) /\
      map kept (rows (df self)) ≡ₚ map kept_of_raw (rows csv) /\
      Forall (fun r => is_nan (Total_Ascent r) = false /\ is_nan (Total_Descent r) = false)
             (rows (df self))
  | Raise _ => True
  end.
Proof.
  destruct (__init__ to_num csv) as [self|] eqn:E; [| exact I].
  pose proof (init_sorted _ _ _ E) as Hsorted.
  rewrite init_rowwise in E.
  destruct (mapM _ _) as [rs|] eqn:Em; [| discriminate].
  injection E as <-. cbn [df rows columns] in *. apply mapM_Some_1 in Em.
  split; [reflexivity |]. split; [exact Hsorted |]. split.
  - rewrite <- (sort_by_date_Permutation (rows csv)).
    rewrite (Forall2_map_eq kept_of_raw kept (sort_by_date (rows csv)) rs);
      [reflexivity |].
    eapply Forall2_impl; [exact Em |]. intros raw r H.
    apply (clean_one_keeps _ _ _ H).
  - apply Forall_forall. intros r Hr.
    destruct (Forall2_elem_of_r _ _ _ _ Em Hr) as (raw & _ & H).
    apply (clean_one_keeps _ _ _ H).
Qed.

(** ** The arguments of the command line *)

Lemma digit_not_space (c : ascii) : is_digit c = true -> is_space c = false.
Proof.
  unfold is_digit, is_space. intros H. apply andb_true_iff in H as [H1 H2].
  apply Z.leb_le in H1, H2.
  destruct (Z.leb_spec 9 (code c)), (Z.leb_spec (code c) 13), (Z.eqb_spec (code c) 32);
    cbn [andb orb]; try reflexivity; lia.
Qed.

Lemma digit_no_sign (c : ascii) (rest : string) :
  is_digit c = true -> take_sign (String c rest) = (false, String c rest).
Proof.
  intros H. destruct c as [[] [] [] [] [] [] [] []]; try reflexivity;
    cbv in H; discriminate H.
Qed.

Lemma rstrip_digits (s : string) : forall_chars is_digit s = true -> rstrip s = s.
Proof.
  induction s as [|c s IH]; [reflexivity |].
  cbn [forall_chars rstrip]. intros H. apply andb_true_iff in H as [Hc Hs].
  rewrite (IH Hs). destruct s; [| reflexivity].
  rewrite (digit_not_space c Hc). reflexivity.
Qed.

Lemma strip_digits (s : string) : forall_chars is_digit s = true -> strip s = s.
Proof.
  intros H. unfold strip.
  replace (lstrip s) with s; [apply rstrip_digits, H |].
  destruct s as [|c s]; [reflexivity |]. cbn [forall_chars] in H.
  apply andb_true_iff in H as [Hc _]. cbn [lstrip]. rewrite (digit_not_space c Hc).
  reflexivity.
Qed.

Lemma digitpart_digits (s : string) (after_digit : bool) :
  forall_chars is_digit s = true ->
  s <> EmptyString \/ after_digit = true ->
  exists ds : list Z,
    digitpart_from after_digit s = Some ds /\ Forall (fun d => 0 <= d) ds /\
    length ds = String.length s.
Proof.
  revert after_digit. induction s as [|c s IH]; intros after_digit H Hne.
  - destruct Hne as [Hne| ->]; [congruence |].
    exists []. split; [reflexivity |]. split; [constructor | reflexivity].
  - cbn [forall_chars] in H. apply andb_true_iff in H as [Hc Hs].
    destruct (IH true Hs (or_intror eq_refl)) as (ds & Hds & Hall & Hlen).
    exists (digit_val c :: ds). cbn [digitpart_from]. rewrite Hc, Hds.
    split; [reflexivity |]. split; [| cbn [length String.length]; rewrite Hlen; reflexivity].
    constructor; [| exact Hall].
    unfold is_digit in Hc. apply andb_true_iff in Hc as [Hc _]. apply Z.leb_le in Hc.
    unfold digit_val. lia.
Qed.

Lemma decimal_nonnegative (ds : list Z) : Forall (fun d => 0 <= d) ds -> 0 <= decimal ds.
Proof.
  intros Hall. unfold decimal.
  assert (H : forall acc : Z,
            0 <= acc -> 0 <= fold_left (fun acc d => 10 * acc + d) ds acc).
  { induction Hall as [|d ds Hd _ IH]; intros acc Hacc; cbn [fold_left]; [exact Hacc |].
    apply IH. lia. }
  apply H. lia.
Qed.

Lemma seven_bit_length (s : string) : seven_bit s -> (String.length s <= 4300)%nat.
Proof.
  unfold seven_bit. intros H. apply andb_true_iff in H as [_ H].
  apply Nat.leb_le, H.
Qed.

(** Digits only, and no more of them than [int] reads. *)
Lemma isdigit_py_int (s : string) :
  seven_bit s -> isdigit s = true -> exists n : Z, py_int s = Some n /\ 0 <= n.
Proof.
  intros Hshort H. apply seven_bit_length in Hshort.
  assert (Hne : s <> EmptyString) by (intros ->; discriminate H).
  assert (Hall : forall_chars is_digit s = true) by (destruct s; [congruence | exact H]).
  unfold py_int. rewrite (strip_digits s Hall).
  destruct s as [|c s]; [congruence |].
  pose proof Hall as Hc. cbn [forall_chars] in Hc. apply andb_true_iff in Hc as [Hc _].
  rewrite (digit_no_sign c s Hc).
  destruct (digitpart_digits (String c s) false Hall (or_introl Hne))
    as (ds & Hds & Hpos & Hlen).
  unfold digitpart. rewrite Hds.
  replace (max_str_digits <? length ds)%nat with false
    by (symmetry; apply Nat.ltb_ge; unfold max_str_digits; lia).
  exists (decimal ds).
  split; [reflexivity | apply decimal_nonnegative, Hpos].
Qed.

Lemma week_after_last (args : list string) (week : Z) :
  Forall seven_bit args ->
  week_after args week =
  match last (List.filter isdigit args) with
  | Some a => default week (py_int a)
  | None => week
  end.
Proof.
  intros Hall. unfold week_after. revert week.
  induction Hall as [|arg args Harg Hall IH]; intros week; [reflexivity |].
  cbn [fold_left List.filter]. rewrite IH.
  destruct (isdigit arg) eqn:Earg; [| reflexivity].
  rewrite last_cons. destruct (last (List.filter isdigit args)) as [a|] eqn:El; [| reflexivity].
  apply last_Some_elem_of, list_elem_of_In, filter_In in El as [Hin Ha].
  rewrite Forall_forall in Hall. apply list_elem_of_In in Hin.
  destruct (isdigit_py_int a (Hall a Hin) Ha) as (m & -> & _). reflexivity.
Qed.

Lemma scan_arguments_result (argv : list string) (n i : nat) (week : Z) (out : string) :
  Forall seven_bit argv ->
  (i + n = length argv)%nat ->
  scan_arguments argv i (drop i argv) week out =
  Ok (week_after (drop i argv) week,
      match last (output_flags argv i n) with
      | Some j => nth (j + 1) argv ""
      | None => out
      end).
Proof.
  intros Hall. revert i week out. induction n as [|n IH]; intros i week out Hlen.
  - rewrite drop_ge by lia. reflexivity.
  - destruct (lookup_lt_is_Some_2 argv i ltac:(lia)) as [arg Harg].
    rewrite (drop_S argv arg i Harg). unfold output_flags.
    cbn [scan_arguments seq List.filter]. rewrite (nth_lookup_Some argv i "" arg Harg).
    fold (output_flags argv (S i) n). unfold week_after. cbn [fold_left].
    fold (week_after (drop (S i) argv)).
    destruct (String.eqb arg "--output" && (i + 1 <? length argv)%nat) eqn:Eflag.
    + apply andb_true_iff in Eflag as [Eflag _]. apply String.eqb_eq in Eflag. subst arg.
      rewrite IH by lia. rewrite last_cons. cbn [isdigit forall_chars].
      destruct (last (output_flags argv (S i) n)); reflexivity.
    + destruct (isdigit arg) eqn:Edigit.
      * assert (Hseven : seven_bit arg)
          by (rewrite Forall_forall in Hall; apply Hall; eapply list_elem_of_lookup_2, Harg).
        destruct (isdigit_py_int arg Hseven Edigit) as (m & -> & _).
        rewrite IH by lia. reflexivity.
      * rewrite IH by lia. reflexivity.
Qed.

(** X12.  What the argument loop of [main] leaves, for arguments of 7-bit
    characters no longer than 4300.  It never fails.  The plan week is the number that the
    last all-digit argument after the CSV path reads as, so it is never
    negative, and it is 1 when there is no such argument; every all-digit
    argument counts, also one that is the file name given to "--output".
    The output file is the argument that follows the last "--output"
    having a follower, and "training_report.html" when there is none. *)
Theorem command_line_arguments (argv : list string) :
  Forall seven_bit argv ->
  exists (week : Z) (out : string),
    parse_arguments argv = Ok (week, out) /\
    0 <= week /\
    match last (List.filter isdigit (drop 2 argv)) with
    | Some a => py_int a = Some week
    | None => week = 1
    end /\
    out = match last (output_flags argv 2 (length argv - 2)) with
          | Some j => nth (j + 1) argv ""
          | None => "training_report.html"
          end.
Proof.
  intros Hall. unfold parse_arguments.
  assert (Hrun : scan_arguments argv 2 (drop 2 argv) 1 "training_report.html" =
                 Ok (week_after (drop 2 argv) 1,
                     match last (output_flags argv 2 (length argv - 2)) with
                     | Some j => nth (j + 1) argv ""
                     | None => "training_report.html"
                     end)).
  { destruct (le_lt_dec 2 (length argv)) as [Hlen|Hlen].
    - apply scan_arguments_result; [exact Hall | lia].
    - rewrite drop_ge by lia. replace (length argv - 2)%nat with 0%nat by lia. reflexivity. }
  rewrite Hrun. eexists _, _. split; [reflexivity |].
  pose proof (Forall_drop _ 2 _ Hall) as Hrest.
  rewrite (week_after_last _ _ Hrest).
  destruct (last (List.filter isdigit (drop 2 argv))) as [a|] eqn:El.
  - apply last_Some_elem_of, list_elem_of_In, filter_In in El as [Hin Ha].
    rewrite Forall_forall in Hrest. apply list_elem_of_In in Hin.
    destruct (isdigit_py_int a (Hrest a Hin) Ha) as (m & Hm & Hpos). rewrite Hm. cbn [default].
    repeat split; [exact Hpos].
  - repeat split. lia.
Qed.

Lemma command_line_arguments_witness :
  exists (week : Z) (out : string),
    parse_arguments ["prog"; "runs.csv"; "--output"; "2024"] = Ok (week, out) /\
    0 <= week /\
    match last (List.filter isdigit (drop 2 ["prog"; "runs.csv"; "--output"; "2024"])) with
    | Some a => py_int a = Some week
    | None => week = 1
    end /\
    out = match last (output_flags ["prog"; "runs.csv"; "--output"; "2024"] 2
                        (length ["prog"; "runs.csv"; "--output"; "2024"] - 2)) with
          | Some j => nth (j + 1) ["prog"; "runs.csv"; "--output"; "2024"] ""
          | None => "training_report.html"
          end.
Proof.
  apply (command_line_arguments ["prog"; "runs.csv"; "--output"; "2024"]).
  repeat constructor.
Defined.

(** ** What a report depends on *)

(** X13.  A report depends on the running records alone: two objects with
    the same marathon and race dates whose frames have the same columns
    and the same running rows, in the same order, give the same outcome,
    whatever their rows of other activity types. *)
Theorem only_running_records_count (self self' : analyzer) (week now : Z) :
  fst (get_running_data self) = fst (get_running_data self') ->
  marathon_date self = marathon_date self' ->
  race_date self = race_date self' ->
  fst (generate_html_report week now self) = fst (generate_html_report week now self').
Proof.
  intros H Hm Hr. revert H. run_method. cbn [fst]. intros [= Hc Hrows].
  rewrite Hc, Hrows, Hm, Hr.
  destruct (missing_columns _); reflexivity.
Qed.

Lemma only_running_records_count_witness :
  fst (generate_html_report 1 Sample.a_clock Sample.with_a_ride) =
  fst (generate_html_report 1 Sample.a_clock Sample.four_runs_object).
Proof.
  apply (only_running_records_count Sample.with_a_ride Sample.four_runs_object
           1 Sample.a_clock); reflexivity.
Defined.

(** X14.  Every finished report comes from a frame that has the column
    "Avg HR" and the column "Aerobic TE": the weekly aggregation of the
    charts names both, so a frame that lacks one of them gives no report.
    No finished report has the load status "N/A", which stands for a
    missing column; a missing column "Max HR" alone is tolerated, and the
    maximum heart rate is then 0. *)
Theorem missing_columns_fail (self : analyzer) (week now : Z) :
  match fst (generate_html_report week now self) with
  | Ok r =>
      has_column "Avg HR" (df self) = true /\
      has_column "Aerobic TE" (df self) = true /\
      load_status (hr r) <> "N/A" /\
      (has_column "Max HR" (df self) = false -> max_hr (hr r) = zero)
  | Raise _ => True
  end.
Proof.
  run_method. rewrite missing_columns_running.
  destruct (missing_columns (df self)) as [|c cs] eqn:E; cbn [fst]; [| exact I].
  destruct (missing_columns_none _ E) as [Hhr Hte].
  split; [exact Hhr |]. split; [exact Hte |].
  cbn [hr]. unfold hr_analysis, has_column. cbn [columns]. rewrite Hte.
  cbn [load_status max_hr]. split; [apply load_not_unavailable |].
  intros ->. reflexivity.
Qed.

(** ** The weekly buckets and the order of the rows *)

Lemma weekly_buckets (self : analyzer) (weeks : Z) :
  fst (_get_weekly_data weeks self) =
  match missing_columns (df self) with
  | [] =>
      let window := by_week (trailing (weeks * 7) (rows (running_frame (df self)))) in
      Ok (map (aggregate window) (group_keys window))
  | missing => Raise (KeyError missing)
  end.
Proof.
  run_method. rewrite missing_columns_running, trailing_on_or_after.
  destruct (missing_columns (df self)); reflexivity.
Qed.

Lemma trailing_Permutation (n : Z) (rs rs' : list activity) :
  rs ≡ₚ rs' -> trailing n rs ≡ₚ trailing n rs'.
Proof.
  intros H. unfold trailing. rewrite (max_Permutation _ _ (Permutation_map Date H)).
  destruct (Series.max (map Date rs')); [| reflexivity].
  apply filter_bool_Permutation, H.
Qed.

Lemma count_of_aggregate (rs : list (Z * activity)) (ws : list Z) :
  map count_Activity_Type (map (aggregate rs) ws) =
  map (fun w => Z.of_nat (length (List.filter (fun p => fst p =? w) rs))) ws.
Proof.
  rewrite map_map. apply map_ext. intros w. unfold aggregate.
  cbn [count_Activity_Type]. rewrite length_map. reflexivity.
Qed.

(** X15.  What the weekly aggregation gives whatever the order of the
    rows: for two frames with the same columns whose rows are the same up
    to their order, the buckets have the same weeks, in strictly ascending
    order, and the same record counts, and every week gathers the same
    records up to their order (only the order in which a bucket adds
    up its records can differ); when one run fails, so does the other,
    with the same error. *)
Theorem weekly_weeks_order_independent (self self' : analyzer) (weeks : Z) :
  rows (df self) ≡ₚ rows (df self') ->
  columns (df self) = columns (df self') ->
  match fst (_get_weekly_data weeks self), fst (_get_weekly_data weeks self') with
  | Ok buckets, Ok buckets' =>
      map Week buckets = map Week buckets' /\
      map count_Activity_Type buckets = map count_Activity_Type buckets' /\
      StronglySorted Z.lt (map Week buckets) /\
      match fst (get_running_data self), fst (get_running_data self') with
      | Ok running, Ok running' =>
          let window := trailing (weeks * 7) (rows running) in
          let window' := trailing (weeks * 7) (rows running') in
          (forall w : Z,
             w ∈ map Week buckets <->
             exists r : activity, r ∈ window /\ week_of (Date r) = w) /\
          (forall w : Z,
             List.filter (fun r => week_of (Date r) =? w) window ≡ₚ
             List.filter (fun r => week_of (Date r) =? w) window')
      | _, _ => False
      end
  | Raise e, Raise e' => e = e'
  | _, _ => False
  end.
Proof.
  intros Hrows Hcols. rewrite !weekly_buckets.
  assert (Hmiss : missing_columns (df self) = missing_columns (df self'))
    by (unfold missing_columns, has_column; rewrite Hcols; reflexivity).
  rewrite <- Hmiss. destruct (missing_columns (df self)); [| reflexivity].
  cbv zeta. cbn [get_running_data attr mbind M_bind mret M_ret fst].
  fold (running_frame (df self)). fold (running_frame (df self')).
  assert (Hwin : trailing (weeks * 7) (rows (running_frame (df self))) ≡ₚ
                 trailing (weeks * 7) (rows (running_frame (df self')))).
  { apply trailing_Permutation. unfold running_frame. cbn [rows].
    apply filter_bool_Permutation, Hrows. }
  set (window := trailing (weeks * 7) (rows (running_frame (df self)))) in *.
  set (window' := trailing (weeks * 7) (rows (running_frame (df self')))) in *.
  assert (Hby : by_week window ≡ₚ by_week window') by (apply Permutation_map, Hwin).
  rewrite !week_of_aggregate, !count_of_aggregate.
  rewrite (group_keys_Permutation _ _ Hby).
  split; [reflexivity |]. split.
  { apply map_ext. intros w. f_equal. apply Permutation_length.
    apply filter_bool_Permutation, Hby. }
  split; [apply group_keys_ascending |].
  split.
  - intros w. rewrite <- (group_keys_Permutation _ _ Hby). apply group_keys_weeks.
  - intros w. apply filter_bool_Permutation, Hwin.
Qed.

Lemma weekly_weeks_order_independent_witness :
  match fst (_get_weekly_data 8 Sample.four_runs_object),
        fst (_get_weekly_data 8 Sample.four_runs_reversed) with
  | Ok buckets, Ok buckets' =>
      map Week buckets = map Week buckets' /\
      map count_Activity_Type buckets = map count_Activity_Type buckets' /\
      StronglySorted Z.lt (map Week buckets) /\
      match fst (get_running_data Sample.four_runs_object),
            fst (get_running_data Sample.four_runs_reversed) with
      | Ok running, Ok running' =>
          let window := trailing (8 * 7) (rows running) in
          let window' := trailing (8 * 7) (rows running') in
          (forall w : Z,
             w ∈ map Week buckets <->
             exists r : activity, r ∈ window /\ week_of (Date r) = w) /\
          (forall w : Z,
             List.filter (fun r => week_of (Date r) =? w) window ≡ₚ
             List.filter (fun r => week_of (Date r) =? w) window')
      | _, _ => False
      end
  | Raise e, Raise e' => e = e'
  | _, _ => False
  end.
Proof.
  apply (weekly_weeks_order_independent Sample.four_runs_object Sample.four_runs_reversed 8).
  - apply Permutation_rev.
  - reflexivity.
Defined.

Lemma NoDup_map_injective {A B : Type} (g : A -> B) (l : list A) (x y : A) :
  NoDup (map g l) -> x ∈ l -> y ∈ l -> g x = g y -> x = y.
Proof.
  induction l as [|a l IH]; intros Hnd Hx Hy Hg; [inversion Hx |].
  cbn [map] in Hnd. apply NoDup_cons in Hnd as [Ha Hnd].
  apply elem_of_cons in Hx as [->|Hx]; apply elem_of_cons in Hy as [->|Hy].
  - reflexivity.
  - exfalso. apply Ha. rewrite Hg. apply list_elem_of_fmap. exists y. auto.
  - exfalso. apply Ha. rewrite <- Hg. apply list_elem_of_fmap. exists x. auto.
  - apply IH; assumption.
Qed.

(** Rows of distinct dates have one ascending order. *)
Lemma sorted_by_date_unique (l l' : list raw_activity) :
  StronglySorted date_le l -> StronglySorted date_le l' ->
  l ≡ₚ l' -> NoDup (map raw_Date l) -> l = l'.
Proof.
  intros Hs. revert l'. induction Hs as [|x l Hs IH Hall]; intros l' Hs' Hperm Hnd.
  - apply Permutation_nil in Hperm. congruence.
  - destruct Hs' as [|y l' Hs' Hall'].
    + apply Permutation_nil_r in Hperm. discriminate Hperm.
    + assert (Hxy : x = y).
      { assert (Hx : x ∈ y :: l') by (rewrite <- Hperm; apply list_elem_of_here).
        assert (Hy : y ∈ x :: l) by (rewrite Hperm; apply list_elem_of_here).
        apply (NoDup_map_injective raw_Date (x :: l) x y Hnd);
          [apply list_elem_of_here | exact Hy |].
        rewrite Forall_forall in Hall, Hall'.
        apply elem_of_cons in Hx as [->|Hx]; [reflexivity |].
        apply elem_of_cons in Hy as [->|Hy]; [reflexivity |].
        specialize (Hall y Hy). specialize (Hall' x Hx). unfold date_le in *. lia. }
      subst y. f_equal. apply IH; [exact Hs' | |].
      * apply (Permutation_cons_inv Hperm).
      * cbn [map] in Hnd. apply NoDup_cons in Hnd as [_ Hnd]. exact Hnd.
Qed.

(** X16.  Construction puts the rows in order: two exports with the same
    columns whose rows are the same up to their order, no two of them at
    the same date and time, give the same outcome of construction, the
    same frame row for row when it succeeds; every evaluation of the one
    object is then an evaluation of the other. *)
Theorem distinct_dates_same_object (to_num : string -> pyfloat)
    (csv csv' : frame raw_activity) :
  rows csv ≡ₚ rows csv' ->
  columns csv = columns csv' ->
  NoDup (map raw_Date (rows csv)) ->
  __init__ to_num csv = __init__ to_num csv' /\
  rows (sort_values csv) = rows (sort_values csv').
Proof.
  intros Hrows Hcols Hnd.
  assert (Hsame : sort_by_date (rows csv) = sort_by_date (rows csv')).
  { apply sorted_by_date_unique; try apply sort_by_date_sorted.
    - rewrite !sort_by_date_Permutation. exact Hrows.
    - rewrite (Permutation_map raw_Date (sort_by_date_Permutation (rows csv))). exact Hnd. }
  split; [| exact Hsame].
  rewrite !init_rowwise, Hsame, Hcols. reflexivity.
Qed.

Lemma distinct_dates_same_object_witness :
  __init__ Sample.no_text Sample.four_runs = __init__ Sample.no_text Sample.four_runs_backwards /\
  rows (sort_values Sample.four_runs) = rows (sort_values Sample.four_runs_backwards).
Proof.
  apply (distinct_dates_same_object Sample.no_text Sample.four_runs Sample.four_runs_backwards).
  - apply Permutation_rev.
  - reflexivity.
  - apply (bool_decide_unpack _). vm_compute. reflexivity.
Defined.
